(** * ai-image-edit: fallback resolution, storage quota and edit orchestration

    A shallow embedding of [cleanup_service.py], [reddit_service.py],
    [ai_service.py] and the routes of [main.py] that call them.

    Modelling conventions.
    - Python exceptions are values of type [exn]: a class and a message.  The
      class hierarchy is the one of CPython and of [requests]; an [except C]
      clause is a test [isinstance e C].
    - Effectful code lives in the monad [M St A := St -> (exn + A) * St].  The
      state is returned on both outcomes: what a Python function did before it
      raised is not undone.
    - The outside world (system clock, file permissions, the Reddit listing,
      the HTTP server, the image decoder, the Gemini model) is data of the
      state or an argument of the function.  An external call may raise where
      the source guards it with a handler, and where it raises on an input
      the program can meet although no handler is there: the [praw.Reddit]
      constructor without a user agent, [json.load] on a cache file that is
      not UTF-8, [len] of a cache file that holds no array, [request.json()]
      on a body that is not JSON.  [os.listdir] and [os.makedirs] on the
      folders of the service are taken to return.
    - Time stamps are integers (seconds); sizes are integers (bytes); the
      megabyte figure of [get_directory_size] is an exact rational: the
      division by [1024 * 1024] is exact in binary floating point. *)

From Stdlib Require Import ZArith QArith Lia Ascii String List Bool.
From Stdlib Require Import Strings.Byte DecimalString.
From stdpp Require Import gmap strings list fin_maps.

Local Open Scope Z_scope.

(* ===================================================================== *)
(** * Python exceptions and the state-and-exception monad *)
(* ===================================================================== *)

Module Py.

(** The exception classes the services raise, catch or let through. *)
Inductive exn_class :=
| Exception
| AttributeError
| KeyError
| IndexError
| TypeError
| ValueError
| JSONDecodeError
| UnicodeDecodeError
| MissingRequiredAttributeException
| OSError
| FileNotFoundError
| PermissionError
| RequestException
| HTTPError
| ConnectionError.

(** Direct base class; [IOError] is an alias of [OSError] in Python 3 and
    [requests.exceptions.RequestException] derives from it.  The classes
    between two listed ones ([UnicodeError], [praw]'s [ClientException] and
    [PRAWException]) are skipped: no handler names them. *)
Definition base (c : exn_class) : option exn_class :=
  match c with
  | Exception => None
  | AttributeError | TypeError | ValueError | OSError => Some Exception
  | KeyError | IndexError => Some Exception
  | JSONDecodeError | UnicodeDecodeError => Some ValueError
  | MissingRequiredAttributeException => Some Exception
  | FileNotFoundError | PermissionError | RequestException => Some OSError
  | HTTPError | ConnectionError => Some RequestException
  end.

Definition class_eqb (c d : exn_class) : bool :=
  match c, d with
  | Exception, Exception | AttributeError, AttributeError
  | KeyError, KeyError | IndexError, IndexError | TypeError, TypeError
  | ValueError, ValueError | JSONDecodeError, JSONDecodeError
  | UnicodeDecodeError, UnicodeDecodeError
  | MissingRequiredAttributeException, MissingRequiredAttributeException
  | OSError, OSError | FileNotFoundError, FileNotFoundError
  | PermissionError, PermissionError
  | RequestException, RequestException | HTTPError, HTTPError
  | ConnectionError, ConnectionError => true
  | _, _ => false
  end.

(** [issubclass c d], walking up the chain of base classes (depth at most 4). *)
Fixpoint issubclass_fuel (fuel : nat) (c d : exn_class) : bool :=
  class_eqb c d ||
  match fuel with
  | O => false
  | S fuel' =>
      match base c with
      | Some b => issubclass_fuel fuel' b d
      | None => false
      end
  end.

Definition issubclass : exn_class -> exn_class -> bool := issubclass_fuel 4.

Record exn := Exn { exn_cls : exn_class; str : string }.

Definition isinstance (e : exn) (c : exn_class) : bool := issubclass (exn_cls e) c.

(** [isinstance e (C1, C2, ...)]. *)
Definition isinstance_any (e : exn) (cs : list exn_class) : bool :=
  existsb (isinstance e) cs.

Definition M (St A : Type) : Type := St -> (exn + A) * St.

Definition ret {St A} (a : A) : M St A := fun s => (inr a, s).

Definition raise {St A} (e : exn) : M St A := fun s => (inl e, s).

Definition bind {St A B} (m : M St A) (k : A -> M St B) : M St B :=
  fun s =>
    match m s with
    | (inr a, s') => k a s'
    | (inl e, s') => (inl e, s')
    end.

Definition get {St} : M St St := fun s => (inr s, s).

Definition modify {St} (f : St -> St) : M St unit := fun s => (inr tt, f s).

(** [try: body  except cs1 as e: h1 e  except cs2 as e: h2 e ...]: the first
    clause whose classes match handles the exception; without a matching
    clause it propagates. *)
Fixpoint dispatch {St A} (clauses : list (list exn_class * (exn -> M St A)))
    (e : exn) : M St A :=
  match clauses with
  | [] => raise e
  | (cs, handler) :: others =>
      if isinstance_any e cs then handler e else dispatch others e
  end.

Definition try_clauses {St A} (body : M St A)
    (clauses : list (list exn_class * (exn -> M St A))) : M St A :=
  fun s =>
    match body s with
    | (inr a, s') => (inr a, s')
    | (inl e, s') => dispatch clauses e s'
    end.

Definition try_except {St A} (body : M St A) (cs : list exn_class)
    (handler : exn -> M St A) : M St A :=
  try_clauses body [(cs, handler)].

(** Lifting of a pure computation that may raise. *)
Definition lift {St A} (r : exn + A) : M St A := fun s => (r, s).

End Py.

Import Py.

Declare Scope py_scope.
Delimit Scope py_scope with py.
Notation "x <- m ;; k" := (bind m (fun x => k))
  (at level 100, m at next level, right associativity) : py_scope.
Notation "m ;;; k" := (bind m (fun _ => k))
  (at level 100, right associativity) : py_scope.

(* ===================================================================== *)
(** * cleanup_service.py *)
(* ===================================================================== *)

Module Cleanup.

Local Open Scope py_scope.

(** What a file name can denote.  [Symlink (Some m)] resolves to a regular
    file last modified at [m]; [Symlink None] resolves to a directory or to
    nothing. *)
#[warnings="-register-all"]
Inductive node :=
| Regular (size mtime : Z)
| Symlink (target_mtime : option Z)
| Directory (children : list node).

(** A direct entry of a folder.  [locked] tells that [os.remove] on it fails
    (read-only parent, immutable file, ...). *)
Record dirent := Dirent { entry : node; locked : bool }.

Inductive event :=
| EvMakedirs (path : string)
| EvWalk (path : string)
| EvReap (path : string) (max_age_hours : Z)
| EvRemove (path : string) (filename : string).

(** Folders by path, each a finite map from file names to entries, and the
    chronological record of what was done to them.  A folder that has a path
    of its own in [fs] is known by that path: the entries of a listing are
    the files, the links and the folder trees below it that the service
    never names, so the name of one tracked folder is no entry of
    another. *)
Record state := State {
  fs : gmap string (gmap string dirent);
  log : list event
}.

Definition emit (ev : event) : M state unit :=
  modify (fun s => State (fs s) (log s ++ [ev])).

(** Bytes found by [os.walk] below one entry: regular files count, symbolic
    links are skipped ([os.path.islink]) and never followed. *)
Fixpoint walk_bytes (n : node) : Z :=
  match n with
  | Regular size _ => size
  | Symlink _ => 0
  | Directory children =>
      (fix walk_all (l : list node) : Z :=
         match l with
         | [] => 0
         | c :: rest => walk_bytes c + walk_all rest
         end) children
  end.

Definition total_bytes (folder : gmap string dirent) : Z :=
  map_fold (fun _ d total_size => total_size + walk_bytes (entry d)) 0 folder.

(** [get_directory_size]: megabytes, [total_size / (1024 * 1024)].  Walking a
    path that does not exist yields nothing. *)
Definition get_directory_size (path : string) : M state Q :=
  emit (EvWalk path) ;;;
  s <- get ;;
  let total_size := match fs s !! path with
                    | Some folder => total_bytes folder
                    | None => 0
                    end in
  ret (Qmake total_size 1048576).

(** [os.path.isfile]: follows symbolic links. *)
Definition isfile (n : node) : bool :=
  match n with
  | Regular _ _ => true
  | Symlink (Some _) => true
  | Symlink None => false
  | Directory _ => false
  end.

(** [os.path.getmtime], on something [isfile] accepts. *)
Definition getmtime (n : node) : Z :=
  match n with
  | Regular _ mtime => mtime
  | Symlink (Some mtime) => mtime
  | _ => 0
  end.

(** [os.listdir(folder_path)], in the arbitrary order the system gives. *)
Definition listdir (folder : gmap string dirent) : list string :=
  (map_to_list folder).*1.

(** The entry behind [os.path.join(folder_path, filename)] right now. *)
Definition stat (s : state) (folder_path filename : string) : option dirent :=
  match fs s !! folder_path with
  | Some folder => folder !! filename
  | None => None
  end.

(** [os.remove(file_path)], on an entry that exists. *)
Definition os_remove (folder_path filename : string) (d : dirent) : M state unit :=
  if locked d then
    raise (Exn PermissionError ("Permission denied: " +:+ filename))
  else
    modify (fun s =>
      State (match fs s !! folder_path with
             | Some folder => <[folder_path := delete filename folder]> (fs s)
             | None => fs s
             end)
            (log s ++ [EvRemove folder_path filename])).

(** The body of the loop of [clear_old_files] for one file name, handler
    included; the result is the increment of [deleted_files_count]. *)
Definition reap_one (folder_path : string) (cutoff : Z) (filename : string)
    : M state Z :=
  try_except
    (s <- get ;;
     match stat s folder_path filename with
     | Some d =>
         if isfile (entry d) && (getmtime (entry d) <? cutoff) then
           os_remove folder_path filename d ;;;
           ret 1
         else ret 0
     | None => ret 0
     end)
    [OSError]
    (fun _ => ret 0).

Fixpoint reap_loop (folder_path : string) (cutoff : Z) (filenames : list string)
    (deleted_files_count : Z) : M state Z :=
  match filenames with
  | [] => ret deleted_files_count
  | filename :: rest =>
      k <- reap_one folder_path cutoff filename ;;
      reap_loop folder_path cutoff rest (deleted_files_count + k)
  end.

(** [clear_old_files(folder_path, max_age_hours)]; [now] is the reading of
    [time.time()]. *)
Definition clear_old_files (now : Z) (folder_path : string) (max_age_hours : Z)
    : M state Z :=
  emit (EvReap folder_path max_age_hours) ;;;
  s <- get ;;
  match fs s !! folder_path with
  | None => ret 0
  | Some folder =>
      let cutoff := now - max_age_hours * 60 * 60 in
      reap_loop folder_path cutoff (listdir folder) 0
  end.

(** [os.makedirs(path, exist_ok=True)]: a folder that exists is left as it
    is, a missing one is there afterwards, empty.  The ancestors created on
    the way hold nothing but the new folder and get no path in [fs]. *)
Definition makedirs (path : string) : M state unit :=
  modify (fun s =>
    State (match fs s !! path with
           | Some _ => fs s
           | None => <[path := ∅]> (fs s)
           end)
          (log s ++ [EvMakedirs path])).

Definition uploads_path : string := "static/uploads".
Definition edited_path : string := "static/edited_images".

(** [run_cleanup_if_needed()].  [MAX_STORAGE_MB] is the environment variable,
    when set; [now1] and [now2] are the clock readings of the two sweeps. *)
Definition run_cleanup_if_needed (MAX_STORAGE_MB : option Z) (now1 now2 : Z)
    : M state unit :=
  let max_storage_mb := match MAX_STORAGE_MB with Some v => v | None => 500 end in
  let cleanup_age_hours := 24 in
  makedirs uploads_path ;;;
  makedirs edited_path ;;;
  uploads_size <- get_directory_size uploads_path ;;
  edited_size <- get_directory_size edited_path ;;
  let total_size := Qplus uploads_size edited_size in
  if negb (Qle_bool total_size (inject_Z max_storage_mb)) then
    uploads_cleared <- clear_old_files now1 uploads_path cleanup_age_hours ;;
    edited_cleared <- clear_old_files now2 edited_path cleanup_age_hours ;;
    new_uploads <- get_directory_size uploads_path ;;
    new_edited <- get_directory_size edited_path ;;
    ret tt
  else
    ret tt.

End Cleanup.

(* ===================================================================== *)
(** * Strings: the [str] methods the services call *)
(* ===================================================================== *)

Module Str.

(** [s.startswith(p)]. *)
Fixpoint startswith (s p : string) {struct p} : bool :=
  match p with
  | EmptyString => true
  | String c p' =>
      match s with
      | String d s' => Ascii.eqb c d && startswith s' p'
      | EmptyString => false
      end
  end.

Definition startswith_any (s : string) (ps : list string) : bool :=
  existsb (startswith s) ps.

(** [s.endswith(suffix)]. *)
Definition endswith (s suffix : string) : bool :=
  let n := String.length s in
  let k := String.length suffix in
  (k <=? n)%nat && String.eqb (String.substring (n - k) k s) suffix.

Definition endswith_any (s : string) (suffixes : list string) : bool :=
  existsb (endswith s) suffixes.

(** [s.replace(old, new)] for a non-empty [old]: occurrences are replaced
    from the left and do not overlap.  [skip] counts the characters of a
    matched occurrence still to drop. *)
Fixpoint replace_from (old new : string) (skip : nat) (s : string) : string :=
  match s with
  | EmptyString => EmptyString
  | String c rest =>
      match skip with
      | S k => replace_from old new k rest
      | O =>
          if startswith s old then
            new +:+ replace_from old new (String.length old - 1) rest
          else String c (replace_from old new 0 rest)
      end
  end.

Definition replace (s old new : string) : string := replace_from old new 0 s.

(** [sub in s]. *)
Fixpoint contains (sub s : string) : bool :=
  startswith s sub ||
  match s with
  | EmptyString => false
  | String _ rest => contains sub rest
  end.

(** Truth value of a string: non-empty. *)
Definition nonempty (s : string) : bool :=
  match s with EmptyString => false | _ => true end.

End Str.

(* ===================================================================== *)
(** * reddit_service.py *)
(* ===================================================================== *)

Module Reddit.

Local Open Scope py_scope.

(** The [REDDIT_*] environment variables. *)
Record Credentials := {
  REDDIT_CLIENT_ID : option string;
  REDDIT_CLIENT_SECRET : option string;
  REDDIT_USER_AGENT : option string;
  REDDIT_USERNAME : option string;
  REDDIT_PASSWORD : option string
}.

(** Truth value of what [os.getenv] returns. *)
Definition truthy (v : option string) : bool :=
  match v with Some x => Str.nonempty x | None => false end.

(** The client object [praw.Reddit(...)]. *)
Inductive RedditClient := PrawReddit (config : Credentials).

(** [submission.preview]: a dictionary with, when all is there,
    [preview['images'][0]['source']['url']]. *)
Record PreviewSource := { source_url : option string }.
Record PreviewImage := { image_source : option PreviewSource }.
Record Preview := { preview_images : option (list PreviewImage) }.

(** What the code reads of a PRAW submission.  [sub_url] and [sub_preview]
    are [None] when the attribute is absent ([hasattr] false); [sub_author]
    is [None] for a deleted account. *)
Record Submission := {
  sub_id : string;
  sub_title : string;
  sub_selftext : string;
  sub_url : option string;
  sub_preview : option Preview;
  sub_permalink : string;
  sub_created_utc : Z;
  sub_author : option string;
  sub_score : Z;
  sub_num_comments : Z;
  sub_subreddit : string
}.

(** The dictionary built for each post; the fields are its keys. *)
Record Post := {
  id : string;
  title : string;
  description : string;
  imageUrl : string;
  postUrl : string;
  created_utc : Z;
  created_date : string;
  author : string;
  score : Z;
  num_comments : Z;
  subreddit : string
}.

(** What iterating [subreddit.new(limit=...)] does: the submissions come in
    this order, then the listing ends, or raises [failure].  An exception
    raised while a submission is read is the listing raising at that point:
    the posts collected so far are local to the call and lost either way. *)
Record Feed := { yielded : list Submission; failure : option exn }.

(** [CACHE_FILE] on disk, by what reading it gives:
    - [Absent]: there is no file;
    - [Holds posts]: a JSON array of post objects;
    - [Scalar]: a JSON document without a length: [null], a number, [true]
      or [false];
    - [Garbled]: text that is not JSON (an empty or a cut-off file);
    - [NotUtf8]: bytes that are not UTF-8;
    - [Unreadable]: a file that cannot be opened.
    Other JSON documents (a string, an object, an array of other values) are
    not among the states.  The messages of the exceptions are those of a
    typical file of each kind ([null], a file that starts with byte 0xff);
    what the handlers go by is the class. *)
Inductive cache_file :=
| Absent
| Holds (posts : list Post)
| Scalar
| Garbled
| NotUtf8
| Unreadable.

(** What happens to the next write of [CACHE_FILE]:
    - [NoFault]: it goes through;
    - [OpenFails]: [os.makedirs] or [open] raises, the file is not touched;
    - [DumpFails mid_character]: [open] has emptied the file and [json.dump]
      raises before the document is complete (disk full); the text is cut
      off, inside a multi-byte character when [mid_character] is set. *)
Inductive write_fault :=
| NoFault
| OpenFails
| DumpFails (mid_character : bool).

(** [EvSave posts]: the file now holds [posts]; [EvTear]: the file was opened
    for writing and left incomplete. *)
Inductive event :=
| EvQuery (limit : Z)
| EvLoad
| EvSave (posts : list Post)
| EvTear.

(** [cache]: the cache file; [fault]: what a write of it meets; [live]: what
    the subreddit answers, by [limit]; [log]: the chronological record of the
    queries, reads and writes. *)
Record state := State {
  cache : cache_file;
  fault : write_fault;
  live : Z -> Feed;
  log : list event
}.

Definition emit (ev : event) : M state unit :=
  modify (fun s => State (cache s) (fault s) (live s) (log s ++ [ev])).

(** The message of [praw] for a required setting that is [None]. *)
Definition required_message (attribute : string) : string :=
  "Required configuration setting '" +:+ attribute +:+ "' missing. " +:+
  String (ascii_of_nat 10) "" +:+
  "This setting can be provided in a praw.ini file, as a keyword argument to the `Reddit` class constructor, or as an environment variable.".

(** [praw.Reddit(client_id=..., user_agent=REDDIT_USER_AGENT, ...)].  The
    constructor sends nothing, but checks its configuration: a [user_agent]
    that is [None] raises [MissingRequiredAttributeException] (an empty
    string passes).  [client_id] is checked the same way and is set here. *)
Definition praw_Reddit (env : Credentials) : M state RedditClient :=
  match REDDIT_USER_AGENT env with
  | Some _ => ret (PrawReddit env)
  | None =>
      raise (Exn MissingRequiredAttributeException (required_message "user_agent"))
  end.

Definition get_reddit_instance (env : Credentials) : M state (option RedditClient) :=
  if negb (forallb truthy [REDDIT_CLIENT_ID env; REDDIT_CLIENT_SECRET env;
                           REDDIT_USERNAME env; REDDIT_PASSWORD env])
  then ret None
  else
    reddit <- praw_Reddit env ;;
    ret (Some reddit).

(** What a cut-off write leaves behind. *)
Definition torn (mid_character : bool) : cache_file :=
  if mid_character then NotUtf8 else Garbled.

(** [save_posts_to_cache(posts)]: [open(CACHE_FILE, 'w')] empties the file,
    [json.dump] then writes the document. *)
Definition save_posts_to_cache (posts : list Post) : M state unit :=
  s <- get ;;
  match fault s with
  | NoFault =>
      modify (fun s => State (Holds posts) (fault s) (live s) (log s ++ [EvSave posts]))
  | OpenFails =>
      raise (Exn PermissionError "[Errno 13] Permission denied: 'temp/reddit_posts.json'")
  | DumpFails mid_character =>
      modify (fun s => State (torn mid_character) (fault s) (live s) (log s ++ [EvTear])) ;;;
      raise (Exn OSError "[Errno 28] No space left on device")
  end.

(** [os.path.exists(CACHE_FILE)]. *)
Definition exists_cache (c : cache_file) : bool :=
  match c with Absent => false | _ => true end.

(** What [json.load] returns: an array of posts, or a value without a
    length. *)
Inductive document :=
| Array (posts : list Post)
| NoLength.

(** [json.load(f)] under [open(CACHE_FILE, 'r', encoding='utf-8')]. *)
Definition json_load : M state document :=
  s <- get ;;
  match cache s with
  | Holds posts => ret (Array posts)
  | Scalar => ret NoLength
  | Garbled => raise (Exn JSONDecodeError "Expecting value: line 1 column 1 (char 0)")
  | NotUtf8 =>
      raise (Exn UnicodeDecodeError
               "'utf-8' codec can't decode byte 0xff in position 0: invalid start byte")
  | Unreadable =>
      raise (Exn PermissionError "[Errno 13] Permission denied: 'temp/reddit_posts.json'")
  | Absent =>
      raise (Exn FileNotFoundError
               "[Errno 2] No such file or directory: 'temp/reddit_posts.json'")
  end.

(** [len(posts)], for the message printed after the read. *)
Definition len (posts : document) : M state Z :=
  match posts with
  | Array posts => ret (Z.of_nat (length posts))
  | NoLength => raise (Exn TypeError "object of type 'NoneType' has no len()")
  end.

(** The value returned, as a list of posts. *)
Definition elements (posts : document) : list Post :=
  match posts with
  | Array posts => posts
  | NoLength => []
  end.

Definition load_posts_from_cache : M state (list Post) :=
  emit EvLoad ;;;
  s <- get ;;
  if exists_cache (cache s) then
    try_except
      (posts <- json_load ;;
       loaded <- len posts ;;
       ret (elements posts))
      [JSONDecodeError; OSError]
      (fun _ => ret [])
  else ret [].

Section Resolver.

(** [datetime.fromtimestamp(t).isoformat()], in the local time zone. *)
Variable isoformat : Z -> string.

(** [time.time()] during the call. *)
Variable now : Z.

Definition get_mock_posts : list Post :=
  [ {| id := "mock_post_1";
       title := "[PAID] Can someone remove the person in the background?";
       description := "I love this photo of my dog, but the person walking behind ruins it. Can anyone help? Will tip!";
       imageUrl := "https://placehold.co/600x400/000000/FFFFFF?text=Sample+Image+1";
       postUrl := "#";
       created_utc := now;
       created_date := isoformat now;
       author := "mock_user_1";
       score := 152;
       num_comments := 25;
       subreddit := "PhotoshopRequest" |};
    {| id := "mock_post_2";
       title := "Please restore this old photo of my grandparents";
       description := "This is the only photo I have of them together. It's very faded and has some scratches. Thank you in advance!";
       imageUrl := "https://placehold.co/600x400/333333/FFFFFF?text=Sample+Image+2";
       postUrl := "#";
       created_utc := now;
       created_date := isoformat now;
       author := "mock_user_2";
       score := 89;
       num_comments := 12;
       subreddit := "PhotoshopRequest" |};
    {| id := "mock_post_3";
       title := "Can you change the color of my car to blue?";
       description := "Thinking about getting my car repainted. Can someone show me what it would look like in a dark metallic blue?";
       imageUrl := "https://placehold.co/600x400/666666/FFFFFF?text=Sample+Image+3";
       postUrl := "#";
       created_utc := now;
       created_date := isoformat now;
       author := "mock_user_3";
       score := 45;
       num_comments := 8;
       subreddit := "PhotoshopRequest" |} ].

(** [d[key]] on a dictionary and [l[0]] on a list. *)
Definition getitem {A} (key : string) (v : option A) : M state A :=
  match v with
  | Some x => ret x
  | None => raise (Exn KeyError key)
  end.

Definition first_item {A} (l : list A) : M state A :=
  match l with
  | x :: _ => ret x
  | [] => raise (Exn IndexError "list index out of range")
  end.

(** The [elif hasattr(submission, 'preview')] branch. *)
Definition preview_image_url (preview : Preview) : M state (option string) :=
  try_except
    (images <- getitem "images" (preview_images preview) ;;
     image <- first_item images ;;
     source <- getitem "source" (image_source image) ;;
     url <- getitem "url" (source_url source) ;;
     ret (Some (Str.replace url "&amp;" "&")))
    [KeyError; IndexError]
    (fun _ => ret None).

(** "Check for image URL". *)
Definition find_image_url (submission : Submission) : M state (option string) :=
  match sub_url submission with
  | Some url =>
      if Str.endswith_any url [".jpg"; ".jpeg"; ".png"] then ret (Some url)
      else match sub_preview submission with
           | Some preview => preview_image_url preview
           | None => ret None
           end
  | None =>
      match sub_preview submission with
      | Some preview => preview_image_url preview
      | None => ret None
      end
  end.

Definition post_data (submission : Submission) (image_url : string) : Post :=
  {| id := sub_id submission;
     title := sub_title submission;
     description := sub_selftext submission;
     imageUrl := image_url;
     postUrl := "https://www.reddit.com" +:+ sub_permalink submission;
     created_utc := sub_created_utc submission;
     created_date := isoformat (sub_created_utc submission);
     author := match sub_author submission with
               | Some name => name
               | None => "[deleted]"
               end;
     score := sub_score submission;
     num_comments := sub_num_comments submission;
     subreddit := sub_subreddit submission |}.

(** The [for submission in ...] loop over the submissions the listing
    yields. *)
Fixpoint collect (one_day_ago : Z) (submissions : list Submission)
    (image_posts : list Post) : M state (list Post) :=
  match submissions with
  | [] => ret image_posts
  | submission :: rest =>
      if sub_created_utc submission <? one_day_ago then
        collect one_day_ago rest image_posts
      else
        image_url <- find_image_url submission ;;
        match image_url with
        | Some url =>
            if Str.nonempty url then
              collect one_day_ago rest (image_posts ++ [post_data submission url])
            else collect one_day_ago rest image_posts
        | None => collect one_day_ago rest image_posts
        end
  end.

(** [reddit.subreddit(...)] then the loop; the listing is fetched lazily, so
    its failure shows after the submissions it did yield. *)
Definition fetch_fresh (reddit : option RedditClient) (limit : Z)
    : M state (list Post) :=
  match reddit with
  | None =>
      raise (Exn AttributeError "'NoneType' object has no attribute 'subreddit'")
  | Some _ =>
      emit (EvQuery limit) ;;;
      s <- get ;;
      let feed := live s limit in
      let one_day_ago := now - 24 * 60 * 60 in
      image_posts <- collect one_day_ago (yielded feed) [] ;;
      match failure feed with
      | Some e => raise e
      | None => ret image_posts
      end
  end.

(** [cached_posts if cached_posts else get_mock_posts()]. *)
Definition cache_or_mock : M state (list Post) :=
  cached_posts <- load_posts_from_cache ;;
  match cached_posts with
  | [] => ret get_mock_posts
  | _ => ret cached_posts
  end.

(** [get_photoshop_request_posts(limit, cache)]. *)
Definition get_photoshop_request_posts (env : Credentials) (limit : Z)
    (cache : bool) : M state (list Post) :=
  reddit <- get_reddit_instance env ;;
  if cache then cache_or_mock
  else
    try_except
      (image_posts <- fetch_fresh reddit limit ;;
       match image_posts with
       | _ :: _ =>
           save_posts_to_cache image_posts ;;;
           ret image_posts
       | [] => cache_or_mock
       end)
      [Exception]
      (fun e => cache_or_mock).

End Resolver.

End Reddit.



(* ===================================================================== *)
(** * ai_service.py *)
(* ===================================================================== *)

Module AI.

Local Open Scope py_scope.

(** ** [base64.b64encode] *)

Definition alphabet : string :=
  "ABCDEFGHIJKLMNOPQRSTUVWXYZabcdefghijklmnopqrstuvwxyz0123456789+/".

(** The character of a 6-bit value. *)
Definition sextet (n : N) : ascii :=
  match String.get (N.to_nat n) alphabet with
  | Some c => c
  | None => "="%char
  end.

(** Three bytes give four characters; a last group of one or two bytes is
    padded with [=]. *)
Fixpoint b64encode (bytes : list byte) : string :=
  match bytes with
  | [] => EmptyString
  | [a] =>
      let n := (Byte.to_N a * 65536)%N in
      String (sextet (n / 262144)) (String (sextet (n / 4096 mod 64)) "==")
  | [a; b] =>
      let n := (Byte.to_N a * 65536 + Byte.to_N b * 256)%N in
      String (sextet (n / 262144)) (String (sextet (n / 4096 mod 64))
        (String (sextet (n / 64 mod 64)) "="))
  | a :: b :: c :: rest =>
      let n := (Byte.to_N a * 65536 + Byte.to_N b * 256 + Byte.to_N c)%N in
      String (sextet (n / 262144)) (String (sextet (n / 4096 mod 64))
        (String (sextet (n / 64 mod 64)) (String (sextet (n mod 64))
          (b64encode rest))))
  end.

(** ** The outside world *)

(** A [requests] response. *)
Record HttpResponse := {
  status_code : Z;
  reason : string;
  content : list byte
}.

(** A path on the local disk, as [open(path, "rb")] finds it. *)
Inductive local_file :=
| Missing
| Denied
| Bytes (data : list byte).

(** [part.inline_data]: a protobuf message, false when none of its fields is
    set. *)
Record Blob := { mime_type : string; data : list byte }.

Definition blob_bool (b : Blob) : bool :=
  Str.nonempty (mime_type b) || match data b with [] => false | _ => true end.

Record Part := { part_text : string; inline_data : Blob }.

(** A [GenerateContentResponse]: its parts, and what the [text] accessor
    does (it raises when the response has no text to give). *)
Record Response := { parts : list Part; text : exn + string }.

Record EditResult := {
  ok : bool;
  edited_image_data : option string;
  error : option string
}.

Definition success (data_url : string) : EditResult :=
  {| ok := true; edited_image_data := Some data_url; error := None |}.

Definition failed (message : string) : EditResult :=
  {| ok := false; edited_image_data := None; error := Some message |}.

Definition newline : string := String (ascii_of_nat 10) EmptyString.
Definition quote : string := String (ascii_of_nat 34) EmptyString.

Definition decimal (n : Z) : string :=
  DecimalString.NilZero.string_of_int (Z.to_int n).

(** [response.raise_for_status()]. *)
Definition raise_for_status (url : string) (r : HttpResponse) : M unit unit :=
  if (400 <=? status_code r) && (status_code r <? 500) then
    raise (Exn HTTPError (decimal (status_code r) +:+ " Client Error: " +:+
                          reason r +:+ " for url: " +:+ url))
  else if (500 <=? status_code r) && (status_code r <? 600) then
    raise (Exn HTTPError (decimal (status_code r) +:+ " Server Error: " +:+
                          reason r +:+ " for url: " +:+ url))
  else ret tt.

Section Orchestrator.

(** The decoded picture, left abstract. *)
Variable Image : Type.

(** [vision_model]: [None] without [GEMINI_API_KEY]; otherwise what
    [generate_content([prompt, image])] answers. *)
Variable vision_model : option (string -> Image -> exn + Response).

(** [requests.get(url, headers=..., timeout=20)]. *)
Variable requests_get : string -> exn + HttpResponse.

(** The local disk. *)
Variable disk : string -> local_file.

(** [Image.open(BytesIO(image_bytes))]. *)
Variable Image_open : list byte -> exn + Image.

Definition open_rb (path : string) : M unit (list byte) :=
  match disk path with
  | Bytes data => ret data
  | Missing => raise (Exn FileNotFoundError ("No such file or directory: " +:+ path))
  | Denied => raise (Exn PermissionError ("Permission denied: " +:+ path))
  end.

Definition final_prompt (prompt : string) : string :=
  newline +:+
  "        **Role**: You are an expert photo editing AI." +:+ newline +:+
  "        **Task**: Follow the user's instructions precisely to edit the provided image." +:+ newline +:+
  "        **Constraint**: Your response MUST be ONLY the edited image. Do not provide any text, descriptions, or commentary." +:+ newline +:+
  newline +:+
  "        **User's Instruction**: " +:+ quote +:+ prompt +:+ quote +:+ newline +:+
  "        ".

Definition no_image_message : string :=
  "AI did not return an image. It may have refused the request due to safety policies or a vague prompt.".

(** Truth value of [generation_response.parts and
    generation_response.parts[0].inline_data]. *)
Definition first_part_has_image (r : Response) : bool :=
  match parts r with
  | [] => false
  | generated_part :: _ => blob_bool (inline_data generated_part)
  end.

(** The [else] branch: the fixed message, with the model's own words when
    the [text] accessor gives any. *)
Definition refusal (generation_response : Response) : M unit EditResult :=
  error_message <-
    try_except
      (reason <- lift (text generation_response) ;;
       ret (no_image_message +:+ newline +:+ "Reason from AI: " +:+ reason))
      [Exception]
      (fun _ => ret no_image_message) ;;
  ret (failed error_message).

(** The [if]/[else] on the model's answer. *)
Definition read_answer (generation_response : Response) : M unit EditResult :=
  match parts generation_response with
  | generated_part :: _ =>
      if blob_bool (inline_data generated_part) then
        let image_data := data (inline_data generated_part) in
        let output_mime_type := mime_type (inline_data generated_part) in
        let image_base64 := b64encode image_data in
        let data_url := "data:" +:+ output_mime_type +:+ ";base64," +:+ image_base64 in
        ret (success data_url)
      else refusal generation_response
  | [] => refusal generation_response
  end.

(** The bytes of the picture: downloaded when [image_source] is a URL, read
    from the local disk otherwise. *)
Definition load_image_bytes (image_source : string) : M unit (list byte) :=
  if Str.startswith_any image_source ["http://"; "https://"] then
    response <- lift (requests_get image_source) ;;
    raise_for_status image_source response ;;;
    ret (content response)
  else open_rb image_source.

(** [edit_image_with_gemini(image_source, prompt)]. *)
Definition edit_image_with_gemini (image_source prompt : string) : M unit EditResult :=
  match vision_model with
  | None => ret (failed "AI model not configured.")
  | Some generate_content =>
      try_clauses
        (image_bytes <- load_image_bytes image_source ;;
         match image_bytes with
         | [] => raise (Exn ValueError "Could not load image data from source.")
         | _ :: _ =>
             image <- lift (Image_open image_bytes) ;;
             generation_response <- lift (generate_content (final_prompt prompt) image) ;;
             read_answer generation_response
         end)
        [ ([RequestException],
           fun e => ret (failed ("Failed to download image from URL: " +:+ str e)));
          ([FileNotFoundError],
           fun _ => ret (failed ("Image file not found at path: " +:+ image_source)));
          ([Exception],
           fun e => ret (failed (str e))) ]
  end.

End Orchestrator.

End AI.

(* ===================================================================== *)
(** * The handlers *)
(* ===================================================================== *)

Lemma issubclass_Exception (c : exn_class) : issubclass c Exception = true.
Proof. destruct c; reflexivity. Qed.

(** [except Exception] catches whatever is raised. *)
Lemma isinstance_Exception (e : exn) : isinstance_any e [Exception] = true.
Proof.
  unfold isinstance_any, isinstance. simpl.
  rewrite issubclass_Exception. reflexivity.
Qed.

Lemma try_except_Exception {St A} (body : M St A) (handler : exn -> M St A) (s : St) :
  try_except body [Exception] handler s =
    match body s with
    | (inr a, s') => (inr a, s')
    | (inl e, s') => handler e s'
    end.
Proof.
  unfold try_except, try_clauses. destruct (body s) as [[e|a] s']; [|reflexivity].
  unfold dispatch. rewrite isinstance_Exception. reflexivity.
Qed.

(* ===================================================================== *)
(** * Properties of the cleanup service *)
(* ===================================================================== *)

Module CleanupSpec.

Import Cleanup.

(** Old enough to go: what the test of the loop accepts. *)
Definition expired (cutoff : Z) (d : dirent) : bool :=
  isfile (entry d) && (getmtime (entry d) <? cutoff).

(** Expired and deletable: what the loop does remove. *)
Definition reaped (cutoff : Z) (d : dirent) : bool :=
  expired cutoff d && negb (locked d).

Definition is_remove (ev : event) : bool :=
  match ev with EvRemove _ _ => true | _ => false end.


Ltac run := unfold bind, ret, raise, get, modify, emit, lift; simpl.

Lemma reap_one_run path cutoff k s folder :
  fs s !! path = Some folder ->
  reap_one path cutoff k s =
    match folder !! k with
    | Some d =>
        if reaped cutoff d then
          (inr 1, State (<[path := delete k folder]> (fs s))
                        (log s ++ [EvRemove path k]))
        else (inr 0, s)
    | None => (inr 0, s)
    end.
Proof.
  intros Hf. unfold reap_one, try_except, try_clauses, stat. run.
  rewrite Hf. destruct (folder !! k) as [d|]; [|reflexivity].
  unfold reaped, expired.
  destruct (isfile (entry d) && (getmtime (entry d) <? cutoff)); simpl; [|reflexivity].
  unfold os_remove. destruct (locked d); run; [reflexivity|].
  rewrite Hf. reflexivity.
Qed.

(** One pass of the loop over the names [l]: it returns, the counter grows by
    the number of entries that went, and an entry goes exactly when its name
    was visited and it was expired and deletable. *)
Lemma reap_loop_run path cutoff l : forall s folder c,
  fs s !! path = Some folder ->
  exists s' folder' removes,
    reap_loop path cutoff l c s =
      (inr (c + (Z.of_nat (size folder) - Z.of_nat (size folder'))), s') /\
    fs s' = <[path := folder']> (fs s) /\
    log s' = log s ++ removes /\
    forallb is_remove removes = true /\
    forall k, folder' !! k =
      match folder !! k with
      | Some d => if bool_decide (k ∈ l) && reaped cutoff d then None else Some d
      | None => None
      end.
Proof.
  induction l as [|k l IH]; intros s folder c Hf.
  - exists s, folder, []. simpl. unfold ret.
    repeat split.
    + do 2 f_equal. lia.
    + symmetry. by apply insert_id.
    + by rewrite app_nil_r.
    + intros k. destruct (folder !! k); reflexivity.
  - simpl. unfold bind at 1. rewrite (reap_one_run _ _ _ _ _ Hf).
    destruct (folder !! k) as [d|] eqn:Hk.
    + destruct (reaped cutoff d) eqn:Hr.
      * set (s1 := State _ _).
        assert (Hf1 : fs s1 !! path = Some (delete k folder))
          by (subst s1; simpl; apply lookup_insert_eq).
        destruct (IH s1 (delete k folder) (c + 1) Hf1)
          as (s' & folder' & removes & Hrun & Hfs & Hlog & Hrm & Hlk).
        exists s', folder', (EvRemove path k :: removes).
        repeat split.
        -- rewrite Hrun. do 2 f_equal.
           rewrite map_size_delete, Hk. simpl.
           assert (size folder <> 0%nat).
           { intros Hz. apply map_size_empty_inv in Hz. subst folder.
             rewrite lookup_empty in Hk. discriminate. }
           lia.
        -- rewrite Hfs. subst s1. simpl. apply insert_insert_eq.
        -- rewrite Hlog. subst s1. simpl. by rewrite <- app_assoc.
        -- exact Hrm.
        -- intros j. rewrite Hlk. destruct (decide (j = k)) as [->|Hne].
           ++ rewrite lookup_delete_eq, Hk, Hr.
              rewrite bool_decide_eq_true_2 by apply list_elem_of_here.
              reflexivity.
           ++ rewrite lookup_delete_ne by congruence.
              destruct (folder !! j) as [dj|]; [|reflexivity].
              rewrite (bool_decide_ext (j ∈ l) (j ∈ k :: l)); [reflexivity|].
              rewrite elem_of_cons. intuition congruence.
      * destruct (IH s folder (c + 0) Hf)
          as (s' & folder' & removes & Hrun & Hfs & Hlog & Hrm & Hlk).
        exists s', folder', removes.
        repeat split; try assumption.
        -- rewrite Hrun. do 2 f_equal. lia.
        -- intros j. rewrite Hlk. destruct (folder !! j) as [dj|] eqn:Hj; [|reflexivity].
           destruct (decide (j = k)) as [->|Hne].
           ++ assert (dj = d) by congruence. subst dj. rewrite Hr.
              by rewrite !andb_false_r.
           ++ rewrite (bool_decide_ext (j ∈ l) (j ∈ k :: l)); [reflexivity|].
              rewrite elem_of_cons. intuition congruence.
    + destruct (IH s folder (c + 0) Hf)
        as (s' & folder' & removes & Hrun & Hfs & Hlog & Hrm & Hlk).
      exists s', folder', removes.
      repeat split; try assumption.
      -- rewrite Hrun. do 2 f_equal. lia.
      -- intros j. rewrite Hlk. destruct (folder !! j) as [dj|] eqn:Hj; [|reflexivity].
         assert (j <> k) by congruence.
         rewrite (bool_decide_ext (j ∈ l) (j ∈ k :: l)); [reflexivity|].
         rewrite elem_of_cons. intuition congruence.
Qed.

(** What [clear_old_files] does on a folder that exists. *)
Lemma clear_old_files_run now path hours s folder :
  fs s !! path = Some folder ->
  exists s' removes,
    clear_old_files now path hours s =
      (inr (Z.of_nat (size folder) -
            Z.of_nat (size (filter (fun kd => reaped (now - hours * 60 * 60) kd.2 = false) folder))),
       s') /\
    fs s' = <[path := filter (fun kd => reaped (now - hours * 60 * 60) kd.2 = false) folder]> (fs s) /\
    log s' = log s ++ EvReap path hours :: removes /\
    forallb is_remove removes = true.
Proof.
  intros Hf. unfold clear_old_files. run. rewrite Hf.
  set (s1 := State (fs s) (log s ++ [EvReap path hours])).
  destruct (reap_loop_run path (now - hours * 60 * 60) (listdir folder) s1 folder 0 Hf)
    as (s' & folder' & removes & Hrun & Hfs & Hlog & Hrm & Hlk).
  assert (Hfolder' :
    folder' = filter (fun kd => reaped (now - hours * 60 * 60) kd.2 = false) folder).
  { apply map_eq. intros k. rewrite Hlk, map_lookup_filter.
    destruct (folder !! k) as [d|] eqn:Hk; simpl; [|reflexivity].
    assert (Hin : k ∈ listdir folder).
    { unfold listdir. apply list_elem_of_fmap. exists (k, d). split; [reflexivity|].
      by apply elem_of_map_to_list. }
    rewrite (bool_decide_eq_true_2 _ Hin). simpl.
    destruct (reaped (now - hours * 60 * 60) d) eqn:Hr.
    - rewrite option_guard_False; [reflexivity|]. simpl. congruence.
    - rewrite option_guard_True; [reflexivity|]. reflexivity. }
  subst folder'. exists s', removes.
  split; [|split; [exact Hfs|split; [|exact Hrm]]].
  - rewrite Hrun. do 2 f_equal.
  - rewrite Hlog. subst s1. simpl. by rewrite <- app_assoc.
Qed.

Lemma size_filter_split cutoff (folder : gmap string dirent) :
  (size (filter (fun kd => reaped cutoff kd.2 = true) folder) +
   size (filter (fun kd => reaped cutoff kd.2 = false) folder))%nat = size folder.
Proof.
  rewrite <- (map_filter_union_complement
                (fun kd : string * dirent => reaped cutoff kd.2 = true) folder) at 3.
  rewrite map_size_disj_union by apply map_disjoint_filter_complement.
  f_equal. f_equal. apply map_filter_ext. intros k d _. simpl.
  destruct (reaped cutoff d); split; congruence.
Qed.


(** A file that cannot be removed costs nothing but itself: the loop goes on
    with the names that follow, counter and folders as they were. *)
Lemma reap_loop_skips_failure path cutoff k rest c s folder d :
  fs s !! path = Some folder ->
  folder !! k = Some d ->
  expired cutoff d = true ->
  locked d = true ->
  reap_loop path cutoff (k :: rest) c s = reap_loop path cutoff rest (c + 0) s.
Proof.
  intros Hf Hk He Hl. simpl. unfold bind at 1.
  rewrite (reap_one_run _ _ _ _ _ Hf), Hk.
  unfold reaped. rewrite He, Hl. reflexivity.
Qed.

(** C5, as it holds: on an existing folder the Reaper removes exactly the
    direct entries that [os.path.isfile] accepts, that were last modified
    strictly before [now - max_age_hours] hours and whose removal does not
    fail; it leaves every other entry and every other folder as they were,
    and returns the number of entries it removed. *)
Theorem clear_old_files_exact now path hours s folder :
  fs s !! path = Some folder ->
  exists s',
    clear_old_files now path hours s =
      (inr (Z.of_nat (size (filter (fun kd => reaped (now - hours * 60 * 60) kd.2 = true) folder))),
       s') /\
    fs s' = <[path := filter (fun kd => reaped (now - hours * 60 * 60) kd.2 = false) folder]> (fs s) /\
    forall k d, folder !! k = Some d ->
      stat s' path k = if reaped (now - hours * 60 * 60) d then None else Some d.
Proof.
  intros Hf.
  destruct (clear_old_files_run now path hours s folder Hf)
    as (s' & removes & Hrun & Hfs & _ & _).
  exists s'. repeat split.
  - rewrite Hrun. do 2 f_equal.
    pose proof (size_filter_split (now - hours * 60 * 60) folder). lia.
  - exact Hfs.
  - intros k d Hk. unfold stat. rewrite Hfs, lookup_insert_eq, map_lookup_filter, Hk.
    simpl. destruct (reaped (now - hours * 60 * 60) d) eqn:Hr.
    + rewrite option_guard_False; [reflexivity|]. simpl. congruence.
    + rewrite option_guard_True; [reflexivity|]. reflexivity.
Qed.

Definition sample_folder : gmap string dirent :=
  <["a.png" := Dirent (Regular 10 100) false]>
    (<["b.png" := Dirent (Regular 10 100) true]>
       (<["c.png" := Dirent (Regular 10 5000) false]>
          (<["d" := Dirent (Directory [Regular 7 1]) false]> ∅))).

Definition sample_state : state := State (<["up" := sample_folder]> ∅) [].

Lemma clear_old_files_exact_witness :
  exists s',
    clear_old_files 4000 "up" 1 sample_state =
      (inr (Z.of_nat (size (filter (fun kd => reaped (4000 - 1 * 60 * 60) kd.2 = true) sample_folder))),
       s') /\
    fs s' = <["up" := filter (fun kd => reaped (4000 - 1 * 60 * 60) kd.2 = false) sample_folder]> (fs sample_state) /\
    forall k d, sample_folder !! k = Some d ->
      stat s' "up" k = if reaped (4000 - 1 * 60 * 60) d then None else Some d.
Proof.
  apply (clear_old_files_exact 4000 "up" 1 sample_state sample_folder).
  vm_compute. reflexivity.
Defined.

Example sample_sweep :
  let '(r, s') := clear_old_files 4000 "up" 1 sample_state in
  r = inr 1 /\
  stat s' "up" "a.png" = None /\
  stat s' "up" "b.png" = Some (Dirent (Regular 10 100) true) /\
  stat s' "up" "c.png" = Some (Dirent (Regular 10 5000) false) /\
  log s' = [EvReap "up" 1; EvRemove "up" "a.png"].
Proof. vm_compute. repeat split. Qed.

(** C5 as the specification words it fails: an expired regular file whose
    removal is refused stays in the folder. *)
Lemma clear_old_files_not_all_expired :
  ~ (forall now path hours s folder,
       fs s !! path = Some folder ->
       forall r s', clear_old_files now path hours s = (r, s') ->
       forall k d, folder !! k = Some d ->
         (stat s' path k = None <-> expired (now - hours * 60 * 60) d = true)).
Proof.
  intros H.
  destruct (clear_old_files 4000 "up" 1 sample_state) as [r s'] eqn:Hrun.
  assert (Hf : fs sample_state !! "up" = Some sample_folder) by (vm_compute; reflexivity).
  assert (Hk : sample_folder !! "b.png" = Some (Dirent (Regular 10 100) true))
    by (vm_compute; reflexivity).
  pose proof (proj2 (H 4000 "up" 1 sample_state sample_folder Hf r s' Hrun _ _ Hk)) as Hgone.
  assert (Hstays : stat s' "up" "b.png" = Some (Dirent (Regular 10 100) true)).
  { replace s' with (snd (clear_old_files 4000 "up" 1 sample_state)) by (rewrite Hrun; reflexivity).
    vm_compute. reflexivity. }
  rewrite Hgone in Hstays; [discriminate|]. vm_compute. reflexivity.
Qed.

(** C6: the Reaper is best-effort.  It never raises.  On a path that is not a
    directory it returns 0 and touches no folder.  On a folder, a file whose
    removal fails stays, every expired file that can be removed is removed
    whatever failed before it, and the count returned is the number of
    entries that are gone. *)
Theorem clear_old_files_best_effort now path hours s :
  match fs s !! path with
  | None =>
      clear_old_files now path hours s =
        (inr 0, State (fs s) (log s ++ [EvReap path hours]))
  | Some folder =>
      exists s' folder',
        clear_old_files now path hours s =
          (inr (Z.of_nat (size folder) - Z.of_nat (size folder')), s') /\
        fs s' !! path = Some folder' /\
        (forall k d, folder !! k = Some d ->
           expired (now - hours * 60 * 60) d = true -> locked d = true ->
           folder' !! k = Some d) /\
        (forall k d, folder !! k = Some d ->
           expired (now - hours * 60 * 60) d = true -> locked d = false ->
           folder' !! k = None)
  end.
Proof.
  destruct (fs s !! path) as [folder|] eqn:Hf.
  - destruct (clear_old_files_run now path hours s folder Hf)
      as (s' & removes & Hrun & Hfs & _ & _).
    eexists s', _. split; [exact Hrun|]. split.
    + rewrite Hfs. apply lookup_insert_eq.
    + split; intros k d Hk He Hl; rewrite map_lookup_filter, Hk; simpl.
      * rewrite option_guard_True; [reflexivity|].
        unfold reaped. rewrite He, Hl. reflexivity.
      * rewrite option_guard_False; [reflexivity|].
        unfold reaped. rewrite He, Hl. discriminate.
  - unfold clear_old_files. run. rewrite Hf. reflexivity.
Qed.

Example sweep_past_locked_file :
  let '(r, s') := clear_old_files 4000 "up" 1
                    (State (<["up" := <["0" := Dirent (Regular 1 0) true]>
                                        (<["1" := Dirent (Regular 1 0) false]>
                                        (<["2" := Dirent (Regular 1 0) true]>
                                        (<["3" := Dirent (Regular 1 0) false]> ∅)))]> ∅) []) in
  r = inr 2 /\
  stat s' "up" "0" = Some (Dirent (Regular 1 0) true) /\
  stat s' "up" "1" = None /\
  stat s' "up" "2" = Some (Dirent (Regular 1 0) true) /\
  stat s' "up" "3" = None.
Proof. vm_compute. repeat split. Qed.

Example sweep_missing_folder :
  clear_old_files 4000 "nowhere" 24 sample_state =
    (inr 0, State (fs sample_state) [EvReap "nowhere" 24]).
Proof. vm_compute. reflexivity. Qed.

(** ** The quota policy *)

(** [os.makedirs(path, exist_ok=True)] on the folders. *)
Definition ensure (path : string) (m : gmap string (gmap string dirent))
    : gmap string (gmap string dirent) :=
  match m !! path with
  | Some _ => m
  | None => <[path := ∅]> m
  end.

(** Megabytes below [path], as [get_directory_size] computes them. *)
Definition folder_mb (m : gmap string (gmap string dirent)) (path : string) : Q :=
  Qmake (match m !! path with
         | Some folder => total_bytes folder
         | None => 0
         end) 1048576.





Definition big_file : dirent := Dirent (Regular (600 * 1048576) 0) false.

Example cleanup_above_ceiling :
  let '(r, s') := run_cleanup_if_needed None 100000 100001
                    (State (<[uploads_path := <["old.png" := big_file]> ∅]> ∅) []) in
  r = inr tt /\
  log s' = [EvMakedirs uploads_path; EvMakedirs edited_path;
            EvWalk uploads_path; EvWalk edited_path;
            EvReap uploads_path 24; EvRemove uploads_path "old.png";
            EvReap edited_path 24;
            EvWalk uploads_path; EvWalk edited_path].
Proof. vm_compute. split; reflexivity. Qed.

Example cleanup_within_ceiling :
  let '(r, s') := run_cleanup_if_needed (Some 600) 100000 100001
                    (State (<[uploads_path := <["old.png" := big_file]> ∅]> ∅) []) in
  r = inr tt /\
  log s' = [EvMakedirs uploads_path; EvMakedirs edited_path;
            EvWalk uploads_path; EvWalk edited_path] /\
  stat s' uploads_path "old.png" = Some big_file /\
  (listdir <$> fs s' !! edited_path) = Some [].
Proof. vm_compute. split; [|split; [|split]]; reflexivity. Qed.

End CleanupSpec.

(* ===================================================================== *)
(** * Properties of the post resolver *)
(* ===================================================================== *)

Module RedditSpec.

Import Reddit.

Ltac run := unfold bind, ret, raise, get, modify, emit, lift; simpl.

Definition is_save (ev : event) : bool :=
  match ev with EvSave _ => true | _ => false end.


(** The state after more entries in the record. *)
Definition logged (s : state) (evs : list event) : state :=
  State (cache s) (fault s) (live s) (log s ++ evs).

(** A URL that names a picture by its extension. *)
Definition direct_image_url (submission : Submission) : option string :=
  match sub_url submission with
  | Some url =>
      if Str.endswith_any url [".jpg"; ".jpeg"; ".png"] then Some url else None
  | None => None
  end.

(** The URL of the first preview image, HTML entity undone. *)
Definition nested_preview_url (submission : Submission) : option string :=
  match sub_preview submission with
  | Some preview =>
      match preview_images preview with
      | Some (image :: _) =>
          match image_source image with
          | Some source =>
              match source_url source with
              | Some url => Some (Str.replace url "&amp;" "&")
              | None => None
              end
          | None => None
          end
      | _ => None
      end
  | None => None
  end.

Definition image_url_of (submission : Submission) : option string :=
  match direct_image_url submission with
  | Some url => Some url
  | None => nested_preview_url submission
  end.

(** What reading the cache file gives: the posts of a file that holds posts,
    the empty list for a file that is missing, cannot be opened or is not
    JSON, and the exception that no handler catches for a file that is not
    UTF-8 or holds a value without a length. *)
Definition read (c : cache_file) : exn + list Post :=
  match c with
  | Holds posts => inr posts
  | Scalar => inl (Exn TypeError "object of type 'NoneType' has no len()")
  | NotUtf8 =>
      inl (Exn UnicodeDecodeError
             "'utf-8' codec can't decode byte 0xff in position 0: invalid start byte")
  | Absent | Garbled | Unreadable => inr []
  end.

(** What [get_reddit_instance] comes to: no client without one of the four
    checked credentials, an exception with the four and no user agent, a
    client otherwise. *)
Definition instance (env : Credentials) : exn + option RedditClient :=
  if forallb truthy [REDDIT_CLIENT_ID env; REDDIT_CLIENT_SECRET env;
                     REDDIT_USERNAME env; REDDIT_PASSWORD env]
  then match REDDIT_USER_AGENT env with
       | Some _ => inr (Some (PrawReddit env))
       | None =>
           inl (Exn MissingRequiredAttributeException (required_message "user_agent"))
       end
  else inr None.

Lemma get_reddit_instance_run env s :
  get_reddit_instance env s = (instance env, s).
Proof.
  unfold get_reddit_instance, instance, praw_Reddit.
  destruct (forallb truthy _); [|reflexivity].
  simpl. run. destruct (REDDIT_USER_AGENT env); reflexivity.
Qed.

Lemma load_posts_from_cache_run s :
  load_posts_from_cache s = (read (cache s), logged s [EvLoad]).
Proof.
  unfold load_posts_from_cache, json_load, len, try_except, try_clauses, logged. run.
  destruct s as [[] w l lg]; reflexivity.
Qed.

Section Resolver.

Variable isoformat : Z -> string.
Variable now : Z.

(** The post a submission gives when it qualifies: not older than 24 hours,
    and with a non-empty image URL of one of the two kinds. *)
Definition qualifies (submission : Submission) : option Post :=
  if sub_created_utc submission <? now - 24 * 60 * 60 then None
  else match image_url_of submission with
       | Some url =>
           if Str.nonempty url then Some (post_data isoformat submission url)
           else None
       | None => None
       end.

(** The qualifying posts of a listing, in the order of the listing. *)
Definition qualifying (submissions : list Submission) : list Post :=
  omap qualifies submissions.

(** What the resolver falls back on: the cached posts when the read gives
    some, the mock posts when it gives none, its exception when it raises. *)
Definition fallback (c : cache_file) : exn + list Post :=
  match read c with
  | inr (p :: ps) => inr (p :: ps)
  | inr [] => inr (get_mock_posts isoformat now)
  | inl e => inl e
  end.

Lemma cache_or_mock_run s :
  cache_or_mock isoformat now s = (fallback (cache s), logged s [EvLoad]).
Proof.
  unfold cache_or_mock, bind. rewrite load_posts_from_cache_run.
  unfold fallback. destruct (read (cache s)) as [e|[|p ps]]; reflexivity.
Qed.

Lemma preview_image_url_run preview s :
  preview_image_url preview s =
    (inr (nested_preview_url
            {| sub_id := ""; sub_title := ""; sub_selftext := ""; sub_url := None;
               sub_preview := Some preview; sub_permalink := "";
               sub_created_utc := 0; sub_author := None; sub_score := 0;
               sub_num_comments := 0; sub_subreddit := "" |}), s).
Proof.
  unfold preview_image_url, nested_preview_url, try_except, try_clauses,
    getitem, first_item. run.
  destruct (preview_images preview) as [[|image images]|]; try reflexivity.
  simpl. destruct (image_source image) as [source|]; try reflexivity.
  simpl. destruct (source_url source); reflexivity.
Qed.

Lemma find_image_url_run submission s :
  find_image_url submission s = (inr (image_url_of submission), s).
Proof.
  unfold find_image_url, image_url_of, direct_image_url.
  destruct (sub_url submission) as [url|].
  - destruct (Str.endswith_any url _); [reflexivity|].
    unfold nested_preview_url at 1.
    destruct (sub_preview submission) as [preview|]; [|reflexivity].
    rewrite preview_image_url_run. reflexivity.
  - unfold nested_preview_url at 1.
    destruct (sub_preview submission) as [preview|]; [|reflexivity].
    rewrite preview_image_url_run. reflexivity.
Qed.

(** The loop appends the qualifying posts, in order, and touches nothing. *)
Lemma collect_run submissions : forall image_posts s,
  collect isoformat (now - 24 * 60 * 60) submissions image_posts s =
    (inr (image_posts ++ qualifying submissions), s).
Proof.
  induction submissions as [|submission rest IH]; intros image_posts s.
  - simpl. unfold ret. by rewrite app_nil_r.
  - simpl. unfold qualifying. simpl. unfold qualifies at 1.
    destruct (sub_created_utc submission <? now - 24 * 60 * 60).
    + apply IH.
    + unfold bind. rewrite find_image_url_run.
      destruct (image_url_of submission) as [url|]; [|apply IH].
      destruct (Str.nonempty url); [|apply IH].
      rewrite IH. unfold qualifying. by rewrite <- app_assoc.
Qed.

(** The listing was asked once and the cache was then read. *)
Definition fell_back (s : state) (limit : Z) : (exn + list Post) * state :=
  (fallback (cache s), logged s [EvQuery limit; EvLoad]).

(** The listing was asked and gave no qualifying post.  The cache is read
    inside the [try]: when that read raises, the handler of the call reads
    the cache once more, and this time the exception leaves the call. *)
Definition found_nothing (s : state) (limit : Z) : (exn + list Post) * state :=
  match fallback (cache s) with
  | inr posts => (inr posts, logged s [EvQuery limit; EvLoad])
  | inl e => (inl e, logged s [EvQuery limit; EvLoad; EvLoad])
  end.

(** A call with [cache=True]. *)
Lemma get_photoshop_request_posts_cached_run env limit s :
  get_photoshop_request_posts isoformat now env limit true s =
    match instance env with
    | inl e => (inl e, s)
    | inr _ => (fallback (cache s), logged s [EvLoad])
    end.
Proof.
  unfold get_photoshop_request_posts, bind. rewrite get_reddit_instance_run.
  destruct (instance env); [reflexivity|]. apply cache_or_mock_run.
Qed.

(** Every way a call with [cache=False] can go. *)
Lemma get_photoshop_request_posts_run env limit s :
  get_photoshop_request_posts isoformat now env limit false s =
    match instance env with
    | inl e => (inl e, s)
    | inr None => (fallback (cache s), logged s [EvLoad])
    | inr (Some _) =>
        match failure (live s limit) with
        | Some _ => fell_back s limit
        | None =>
            match qualifying (yielded (live s limit)) with
            | [] => found_nothing s limit
            | p :: ps =>
                match fault s with
                | NoFault =>
                    (inr (p :: ps),
                     State (Holds (p :: ps)) (fault s) (live s)
                           (log s ++ [EvQuery limit; EvSave (p :: ps)]))
                | OpenFails => fell_back s limit
                | DumpFails mid_character =>
                    (fallback (torn mid_character),
                     State (torn mid_character) (fault s) (live s)
                           (log s ++ [EvQuery limit; EvTear; EvLoad]))
                end
            end
        end
    end.
Proof.
  unfold get_photoshop_request_posts. unfold bind at 1.
  rewrite get_reddit_instance_run.
  destruct (instance env) as [e|[client|]]; [reflexivity| |].
  - rewrite try_except_Exception. unfold fetch_fresh, fell_back, found_nothing.
    run. rewrite collect_run. simpl.
    destruct (failure (live s limit)) as [e|].
    + simpl. rewrite cache_or_mock_run.
      unfold logged. simpl. by rewrite <- app_assoc.
    + destruct (qualifying (yielded (live s limit))) as [|p ps].
      * rewrite cache_or_mock_run. unfold logged. simpl.
        destruct (fallback (cache s)) as [e|posts] eqn:Hfb.
        -- rewrite cache_or_mock_run. unfold logged. simpl.
           rewrite Hfb. by rewrite <- !app_assoc.
        -- by rewrite <- app_assoc.
      * unfold save_posts_to_cache. run.
        destruct (fault s) as [| |mid] eqn:Hw.
        -- simpl. by rewrite <- app_assoc.
        -- simpl. rewrite cache_or_mock_run. unfold logged. simpl.
           rewrite ?Hw. by rewrite <- app_assoc.
        -- simpl. rewrite cache_or_mock_run. unfold logged. simpl.
           rewrite ?Hw. by rewrite <- !app_assoc.
  - rewrite try_except_Exception. unfold fetch_fresh. run.
    rewrite cache_or_mock_run. reflexivity.
Qed.

Lemma fallback_nonempty c posts : fallback c = inr posts -> posts <> [].
Proof.
  unfold fallback. destruct (read c) as [e|[|p ps]]; intros H;
    [discriminate H|injection H as <-; discriminate|injection H as <-; discriminate].
Qed.

(** Qualifying posts come in the order of the listing: their ids are a
    subsequence of the ids of the submissions. *)
Lemma qualifying_in_listing_order submissions :
  sublist (List.map id (qualifying submissions)) (List.map sub_id submissions).
Proof.
  induction submissions as [|submission rest IH]; simpl; [constructor|].
  unfold qualifying. simpl. unfold qualifies at 1.
  destruct (sub_created_utc submission <? now - 24 * 60 * 60);
    [by apply sublist_cons|].
  destruct (image_url_of submission) as [url|]; [|by apply sublist_cons].
  destruct (Str.nonempty url); [|by apply sublist_cons].
  simpl. by apply sublist_skip.
Qed.


(** With a client, a listing that ends without raising and yields a
    qualifying submission, and a write that goes through, the cache file
    receives the qualifying posts and the call returns them, in the order of
    the listing. *)
Lemma fresh_posts_overwrite_cache env limit s client :
  let posts := qualifying (yielded (live s limit)) in
  get_reddit_instance env s = (inr (Some client), s) ->
  failure (live s limit) = None ->
  posts <> [] ->
  fault s = NoFault ->
  exists s',
    get_photoshop_request_posts isoformat now env limit false s = (inr posts, s') /\
    cache s' = Holds posts /\
    log s' = log s ++ [EvQuery limit; EvSave posts] /\
    sublist (List.map id posts) (List.map sub_id (yielded (live s limit))).
Proof.
  intros posts Hc Hf Hq Hw. rewrite get_reddit_instance_run in Hc. injection Hc as Hc.
  rewrite get_photoshop_request_posts_run, Hc, Hf, Hw.
  fold posts. destruct posts as [|p ps] eqn:Hp; [congruence|].
  eexists. split; [reflexivity|]. split; [reflexivity|]. split; [reflexivity|].
  rewrite <- Hp. apply qualifying_in_listing_order.
Qed.


(** C10: a call that returns never returns an empty list: the fall-back ends
    in the three mock posts, an empty or unreadable cache is passed over, and
    fresh posts are returned only when there is at least one. *)
Theorem result_never_empty env limit cache_flag s posts s' :
  get_photoshop_request_posts isoformat now env limit cache_flag s = (inr posts, s') ->
  posts <> [].
Proof.
  destruct cache_flag.
  - rewrite get_photoshop_request_posts_cached_run.
    destruct (instance env); [discriminate|].
    intros H. injection H as H _. exact (fallback_nonempty _ _ H).
  - rewrite get_photoshop_request_posts_run. unfold fell_back.
    destruct (instance env) as [e|[client|]]; [discriminate| |].
    + destruct (failure (live s limit)).
      { intros H. injection H as H _. exact (fallback_nonempty _ _ H). }
      destruct (qualifying (yielded (live s limit))) as [|p ps].
      { unfold found_nothing.
        destruct (fallback (cache s)) as [e|found] eqn:Hfb; [discriminate|].
        intros H. injection H as <- _. exact (fallback_nonempty _ _ Hfb). }
      destruct (fault s).
      * intros H. injection H as <- _. discriminate.
      * intros H. injection H as H _. exact (fallback_nonempty _ _ H).
      * intros H. injection H as H _. exact (fallback_nonempty _ _ H).
    + intros H. injection H as H _. exact (fallback_nonempty _ _ H).
Qed.

(** The mock posts. *)
Lemma get_mock_posts_ids :
  List.map id (get_mock_posts isoformat now) =
    ["mock_post_1"; "mock_post_2"; "mock_post_3"].
Proof. reflexivity. Qed.

End Resolver.

(** ** Sample runs *)

Definition sample_iso (t : Z) : string := "2026-01-01T00:00:00".

Definition all_set : Credentials :=
  {| REDDIT_CLIENT_ID := Some "id"; REDDIT_CLIENT_SECRET := Some "secret";
     REDDIT_USER_AGENT := Some "agent"; REDDIT_USERNAME := Some "user";
     REDDIT_PASSWORD := Some "password" |}.

Definition none_set : Credentials :=
  {| REDDIT_CLIENT_ID := None; REDDIT_CLIENT_SECRET := None;
     REDDIT_USER_AGENT := None; REDDIT_USERNAME := None;
     REDDIT_PASSWORD := None |}.

(** The four checked credentials, and no [REDDIT_USER_AGENT]. *)
Definition no_agent : Credentials :=
  {| REDDIT_CLIENT_ID := Some "id"; REDDIT_CLIENT_SECRET := Some "secret";
     REDDIT_USER_AGENT := None; REDDIT_USERNAME := Some "user";
     REDDIT_PASSWORD := Some "password" |}.

Definition submission (name : string) (url : option string)
    (preview : option Preview) (created : Z) : Submission :=
  {| sub_id := name; sub_title := "Fix my photo"; sub_selftext := "";
     sub_url := url; sub_preview := preview;
     sub_permalink := "/r/PhotoshopRequest/comments/" +:+ name;
     sub_created_utc := created; sub_author := None;
     sub_score := 1; sub_num_comments := 0;
     sub_subreddit := "PhotoshopRequest" |}.

Definition preview_of (url : string) : Preview :=
  {| preview_images := Some [ {| image_source := Some {| source_url := Some url |} |} ] |}.

(** Four submissions at time 200000: a fresh picture, a stale one, a fresh
    text post, a fresh post with a preview. *)
Definition sample_listing : list Submission :=
  [ submission "a" (Some "https://i.redd.it/a.jpg") None 199000;
    submission "b" (Some "https://i.redd.it/b.png") None 100;
    submission "c" (Some "https://www.reddit.com/c") None 199500;
    submission "d" (Some "https://www.reddit.com/gallery/d")
               (Some (preview_of "https://preview.redd.it/d.jpg?s=1&amp;w=2")) 199900 ].

Definition old_post : Post :=
  {| id := "z"; title := "Fix my photo"; description := "";
     imageUrl := "https://i.redd.it/z.png";
     postUrl := "https://www.reddit.com/r/PhotoshopRequest/comments/z";
     created_utc := 5; created_date := "1970-01-01T00:00:05";
     author := "[deleted]"; score := 1; num_comments := 0;
     subreddit := "PhotoshopRequest" |}.

Definition answering (listing : list Submission) (c : cache_file) (w : write_fault)
    : state :=
  State c w (fun _ => {| yielded := listing; failure := None |}) [].

Definition failing (listing : list Submission) (c : cache_file) : state :=
  State c NoFault
    (fun _ => {| yielded := listing;
                 failure := Some (Exn ConnectionError "received 503 HTTP response") |})
    [].

Example sample_qualifying :
  List.map (fun p => (id p, imageUrl p)) (qualifying sample_iso 200000 sample_listing) =
    [ ("a", "https://i.redd.it/a.jpg");
      ("d", "https://preview.redd.it/d.jpg?s=1&w=2") ].
Proof. vm_compute. reflexivity. Qed.

Example sample_fresh_run :
  let '(r, s') := get_photoshop_request_posts sample_iso 200000 all_set 50 false
                    (answering sample_listing (Holds [old_post]) NoFault) in
  r = inr (qualifying sample_iso 200000 sample_listing) /\
  cache s' = Holds (qualifying sample_iso 200000 sample_listing) /\
  List.map is_save (log s') = [false; true].
Proof. vm_compute. split; [reflexivity|]. split; reflexivity. Qed.

Example sample_unconfigured_run :
  fst (get_photoshop_request_posts sample_iso 200000 none_set 50 false
         (answering sample_listing (Holds [old_post]) NoFault)) = inr [old_post].
Proof. vm_compute. reflexivity. Qed.

Example sample_garbled_cache_run :
  fst (get_photoshop_request_posts sample_iso 200000 all_set 50 false
         (failing sample_listing Garbled)) = inr (get_mock_posts sample_iso 200000).
Proof. vm_compute. reflexivity. Qed.

Example sample_cached_run :
  let '(r, s') := get_photoshop_request_posts sample_iso 200000 all_set 50 true
                    (answering sample_listing (Holds [old_post]) NoFault) in
  r = inr [old_post] /\ log s' = [EvLoad].
Proof. vm_compute. split; reflexivity. Qed.

(** C1 at calls where an exception escapes.
    - The listing raises and the cache file is not UTF-8: the handler of the
      call reads the cache, [json.load] raises [UnicodeDecodeError], which
      [except (json.JSONDecodeError, IOError)] does not catch.
    - No credential is set (the instance is [None]) and the cache file holds
      [null]: [len(posts)] raises [TypeError] in the same place.
    - The four checked credentials are set and [REDDIT_USER_AGENT] is not:
      the constructor raises before the [try], nothing is asked or read, and
      the cached post is not returned. *)
Theorem live_error_escapes :
  (exists e,
     get_photoshop_request_posts sample_iso 200000 all_set 50 false
         (failing sample_listing NotUtf8) =
       (inl e, logged (failing sample_listing NotUtf8) [EvQuery 50; EvLoad]) /\
     exn_cls e = UnicodeDecodeError) /\
  (exists e,
     get_photoshop_request_posts sample_iso 200000 none_set 50 false
         (answering sample_listing Scalar NoFault) =
       (inl e, logged (answering sample_listing Scalar NoFault) [EvLoad]) /\
     exn_cls e = TypeError) /\
  (exists e,
     get_photoshop_request_posts sample_iso 200000 no_agent 50 false
         (failing sample_listing (Holds [old_post])) =
       (inl e, failing sample_listing (Holds [old_post])) /\
     exn_cls e = MissingRequiredAttributeException).
Proof.
  split; [|split]; eexists; (split; [reflexivity|reflexivity]).
Qed.

(** C2 at calls where the fresh posts are lost.  The listing ends without
    raising and two of its submissions qualify, but the cache file cannot be
    written.  When [open] raises, the handler of the call ("Failed to fetch
    from Reddit API") takes over: the file keeps the old post, and the old
    post is what the call returns.  When [json.dump] raises, the file is left
    cut off and the call returns the mock posts.  Neither call returns the
    two qualifying posts. *)
Theorem fresh_posts_lost_when_save_fails :
  let posts := qualifying sample_iso 200000 sample_listing in
  let open_fails := get_photoshop_request_posts sample_iso 200000 all_set 50 false
                      (answering sample_listing (Holds [old_post]) OpenFails) in
  let dump_fails := get_photoshop_request_posts sample_iso 200000 all_set 50 false
                      (answering sample_listing (Holds [old_post]) (DumpFails false)) in
  List.map id posts = ["a"; "d"] /\
  fst open_fails = inr [old_post] /\
  cache (snd open_fails) = Holds [old_post] /\
  log (snd open_fails) = [EvQuery 50; EvLoad] /\
  fst dump_fails = inr (get_mock_posts sample_iso 200000) /\
  cache (snd dump_fails) = Garbled /\
  log (snd dump_fails) = [EvQuery 50; EvTear; EvLoad].
Proof.
  vm_compute. split; [reflexivity|]. split; [reflexivity|]. split; [reflexivity|].
  split; [reflexivity|]. split; [reflexivity|]. split; reflexivity.
Qed.

(** C4 at calls with [cache=True] that return neither the cached posts nor
    the mock posts.
    - The four checked credentials are set and [REDDIT_USER_AGENT] is not:
      [get_reddit_instance()] runs before [if cache:], the constructor
      raises, and the cache file, which holds a post, is not read.
    - The cache file is not UTF-8, or holds [null]: the read raises past
      [except (json.JSONDecodeError, IOError)].
    In none of them the live source is asked. *)
Theorem prefer_cache_raises :
  (exists e,
     get_photoshop_request_posts sample_iso 200000 no_agent 50 true
         (answering sample_listing (Holds [old_post]) NoFault) =
       (inl e, answering sample_listing (Holds [old_post]) NoFault) /\
     exn_cls e = MissingRequiredAttributeException) /\
  (exists e,
     get_photoshop_request_posts sample_iso 200000 all_set 50 true
         (answering sample_listing NotUtf8 NoFault) =
       (inl e, logged (answering sample_listing NotUtf8 NoFault) [EvLoad]) /\
     exn_cls e = UnicodeDecodeError) /\
  (exists e,
     get_photoshop_request_posts sample_iso 200000 none_set 50 true
         (answering sample_listing Scalar NoFault) =
       (inl e, logged (answering sample_listing Scalar NoFault) [EvLoad]) /\
     exn_cls e = TypeError).
Proof.
  split; [|split]; eexists; (split; [reflexivity|reflexivity]).
Qed.


Lemma result_never_empty_witness :
  qualifying sample_iso 200000 sample_listing <> [].
Proof.
  apply (result_never_empty sample_iso 200000 all_set 50 false
           (answering sample_listing Absent NoFault)
           (qualifying sample_iso 200000 sample_listing)
           (State (Holds (qualifying sample_iso 200000 sample_listing)) NoFault
              (fun _ => {| yielded := sample_listing; failure := None |})
              [EvQuery 50; EvSave (qualifying sample_iso 200000 sample_listing)])).
  vm_compute. reflexivity.
Defined.

End RedditSpec.

(* ===================================================================== *)
(** * Properties of the edit orchestrator *)
(* ===================================================================== *)

Module AISpec.

Import AI.

Ltac run := unfold bind, ret, raise, get, modify, lift; simpl.

(** Some part of the answer, whichever, carries inline data. *)
Definition contains_image (r : Response) : bool :=
  existsb (fun part => blob_bool (inline_data part)) (parts r).

Definition bytes_of (s : string) : list byte :=
  List.map byte_of_ascii (list_ascii_of_string s).

Example b64encode_rfc4648 :
  List.map (fun s => b64encode (bytes_of s)) [""; "f"; "fo"; "foo"; "foob"; "fooba"; "foobar"] =
    [""; "Zg=="; "Zm8="; "Zm9v"; "Zm9vYg=="; "Zm9vYmE="; "Zm9vYmFy"].
Proof. vm_compute. reflexivity. Qed.

Section Orchestrator.

Variable Image : Type.
Variable requests_get : string -> exn + HttpResponse.
Variable disk : string -> local_file.
Variable Image_open : list byte -> exn + Image.

Abbreviation edit vision_model :=
  (edit_image_with_gemini Image vision_model requests_get disk Image_open).

(** The three handlers leave nothing uncaught. *)
Lemma edit_image_with_gemini_returns vision_model image_source prompt :
  exists result, edit vision_model image_source prompt tt = (inr result, tt).
Proof.
  unfold edit_image_with_gemini. destruct vision_model as [generate_content|].
  - unfold try_clauses.
    match goal with |- context [match ?b tt with _ => _ end] => destruct (b tt) as [[e|result] []] end.
    + unfold dispatch.
      destruct (isinstance_any e [RequestException]); [run; eauto|].
      destruct (isinstance_any e [FileNotFoundError]); [run; eauto|].
      rewrite isinstance_Exception. run; eauto.
    + eauto.
  - run. eauto.
Qed.

(** What [read_answer] makes of an answer: the data URI of the first part
    when that part carries inline data, the fixed message otherwise, with the
    words of the model when it gave some. *)
Lemma read_answer_run r :
  read_answer r tt =
    (inr (match parts r with
          | part :: _ =>
              if blob_bool (inline_data part) then
                success ("data:" +:+ mime_type (inline_data part) +:+ ";base64," +:+
                         b64encode (data (inline_data part)))
              else failed (match text r with
                           | inr reason =>
                               no_image_message +:+ newline +:+ "Reason from AI: " +:+ reason
                           | inl _ => no_image_message
                           end)
          | [] => failed (match text r with
                          | inr reason =>
                              no_image_message +:+ newline +:+ "Reason from AI: " +:+ reason
                          | inl _ => no_image_message
                          end)
          end), tt).
Proof.
  assert (Hrefusal : refusal r tt =
    (inr (failed (match text r with
                  | inr reason =>
                      no_image_message +:+ newline +:+ "Reason from AI: " +:+ reason
                  | inl _ => no_image_message
                  end)), tt)).
  { unfold refusal. unfold bind at 1. rewrite try_except_Exception.
    unfold bind, lift, ret. destruct (text r); reflexivity. }
  unfold read_answer. destruct (parts r) as [|part rest]; [exact Hrefusal|].
  destruct (blob_bool (inline_data part)); [reflexivity|exact Hrefusal].
Qed.

(** Once the picture is loaded and decoded and the model has answered, the
    result is what [read_answer] makes of the answer. *)
Lemma edit_image_with_gemini_answer generate_content image_source prompt b bs image r :
  load_image_bytes requests_get disk image_source tt = (inr (b :: bs), tt) ->
  Image_open (b :: bs) = inr image ->
  generate_content (final_prompt prompt) image = inr r ->
  edit (Some generate_content) image_source prompt tt = read_answer r tt.
Proof.
  intros Hload Hopen Hgen. unfold edit_image_with_gemini, try_clauses.
  unfold bind at 1. rewrite Hload. unfold bind, lift. rewrite Hopen, Hgen.
  rewrite read_answer_run. reflexivity.
Qed.


(** The result is [ok] exactly when the first part of the answer carries
    inline data. *)
Lemma edit_ok_iff_first_part generate_content image_source prompt b bs image r :
  load_image_bytes requests_get disk image_source tt = (inr (b :: bs), tt) ->
  Image_open (b :: bs) = inr image ->
  generate_content (final_prompt prompt) image = inr r ->
  exists result,
    edit (Some generate_content) image_source prompt tt = (inr result, tt) /\
    ok result = first_part_has_image r.
Proof.
  intros Hload Hopen Hgen.
  rewrite (edit_image_with_gemini_answer _ _ _ _ _ _ _ Hload Hopen Hgen), read_answer_run.
  eexists. split; [reflexivity|]. unfold first_part_has_image.
  destruct (parts r) as [|part rest]; [reflexivity|].
  destruct (blob_bool (inline_data part)); reflexivity.
Qed.

(** Inline PNG data in the first part gives a data URI that starts with
    [data:image/png;base64,]. *)
Lemma edit_png_data_uri generate_content image_source prompt b bs image r part rest png :
  load_image_bytes requests_get disk image_source tt = (inr (b :: bs), tt) ->
  Image_open (b :: bs) = inr image ->
  generate_content (final_prompt prompt) image = inr r ->
  parts r = part :: rest ->
  inline_data part = {| mime_type := "image/png"; data := png |} ->
  exists uri,
    edit (Some generate_content) image_source prompt tt = (inr (success uri), tt) /\
    uri = "data:image/png;base64," +:+ b64encode png /\
    Str.startswith uri "data:image/png;base64," = true.
Proof.
  intros Hload Hopen Hgen Hparts Hblob.
  rewrite (edit_image_with_gemini_answer _ _ _ _ _ _ _ Hload Hopen Hgen), read_answer_run.
  rewrite Hparts, Hblob. simpl. eexists. split; [reflexivity|]. split; reflexivity.
Qed.

(** C9, as it holds: no failure to get the bytes of the picture escapes as an
    exception, whatever the source.  When the vision model is configured,
    such a failure gives [ok: false]; a download that fails (the request
    raises, or the answer has a 4xx or 5xx status, 404 say) gives a message
    that starts with "Failed to download image from URL: ", and a local path
    where no file is gives the message "Image file not found at path: "
    followed by the path.  When the vision model is not configured the result
    is [ok: false] with "AI model not configured.", whatever the source. *)
Theorem image_load_failures_are_reported vision_model image_source prompt :
  (exists result, edit vision_model image_source prompt tt = (inr result, tt)) /\
  (vision_model = None ->
   edit vision_model image_source prompt tt =
     (inr (failed "AI model not configured."), tt)) /\
  (forall generate_content, vision_model = Some generate_content ->
   (forall e, load_image_bytes requests_get disk image_source tt = (inl e, tt) ->
      exists message,
        edit vision_model image_source prompt tt = (inr (failed message), tt)) /\
   (Str.startswith_any image_source ["http://"; "https://"] = true ->
    (exists e, requests_get image_source = inl e /\ isinstance e RequestException = true) \/
    (exists response, requests_get image_source = inr response /\
                      400 <= status_code response < 600) ->
    exists message,
      edit vision_model image_source prompt tt =
        (inr (failed ("Failed to download image from URL: " +:+ message)), tt) /\
      Str.contains "Failed to download"
        ("Failed to download image from URL: " +:+ message) = true) /\
   (Str.startswith_any image_source ["http://"; "https://"] = false ->
    disk image_source = Missing ->
    edit vision_model image_source prompt tt =
      (inr (failed ("Image file not found at path: " +:+ image_source)), tt) /\
    Str.contains "not found" ("Image file not found at path: " +:+ image_source) = true)).
Proof.
  split; [apply edit_image_with_gemini_returns|]. split; [intros ->; reflexivity|].
  intros generate_content ->. split; [|split].
  - intros e He. unfold edit_image_with_gemini, try_clauses.
    unfold bind at 1. rewrite He. unfold dispatch.
    destruct (isinstance_any e [RequestException]); [run; eauto|].
    destruct (isinstance_any e [FileNotFoundError]); [run; eauto|].
    rewrite isinstance_Exception. run; eauto.
  - intros Hurl Hfail. unfold edit_image_with_gemini, try_clauses.
    unfold bind at 1. unfold load_image_bytes. rewrite Hurl.
    destruct Hfail as [(e & He & Hinst)|(response & Hr & Hlo & Hhi)].
    + unfold bind, lift. rewrite He. unfold dispatch, isinstance_any. simpl.
      rewrite Hinst. simpl. run. eauto.
    + unfold bind at 1. unfold lift. rewrite Hr. unfold raise_for_status.
      destruct (Z.ltb_spec (status_code response) 500) as [Hlt|Hge].
      * replace (400 <=? status_code response) with true by (symmetry; apply Z.leb_le; lia).
        simpl. unfold bind, raise. simpl. unfold ret. eauto.
      * replace (400 <=? status_code response) with true by (symmetry; apply Z.leb_le; lia).
        replace (500 <=? status_code response) with true by (symmetry; apply Z.leb_le; lia).
        replace (status_code response <? 600) with true by (symmetry; apply Z.ltb_lt; lia).
        simpl. unfold bind, raise. simpl. unfold ret. eauto.
  - intros Hurl Hmiss. split; [|reflexivity].
    unfold edit_image_with_gemini, try_clauses.
    unfold bind at 1. unfold load_image_bytes, open_rb. rewrite Hurl, Hmiss.
    reflexivity.
Qed.

End Orchestrator.

(** ** Sample runs *)

Definition png_bytes : list byte := bytes_of "PNG-DATA".

Definition text_part (s : string) : Part :=
  {| part_text := s; inline_data := {| mime_type := ""; data := [] |} |}.

Definition image_part (mime : string) (bytes : list byte) : Part :=
  {| part_text := ""; inline_data := {| mime_type := mime; data := bytes |} |}.

Definition no_text : exn + string :=
  inl (Exn ValueError "Could not convert `part.inline_data` to text.").

(** A model that always gives the same answer. *)
Definition answers (r : Response) : option (string -> list byte -> exn + Response) :=
  Some (fun _ _ => inr r).

Definition not_found_404 (url : string) : exn + HttpResponse :=
  inr {| status_code := 404; reason := "Not Found"; content := [] |}.

(** A disk with one picture. *)
Definition one_picture (path : string) : local_file :=
  if String.eqb path "/srv/static/uploads/cat.png" then Bytes png_bytes else Missing.

Definition decoded (bytes : list byte) : exn + list byte := inr bytes.

Example sample_edit :
  edit_image_with_gemini (list byte)
    (answers {| parts := [image_part "image/png" png_bytes]; text := no_text |})
    not_found_404 one_picture decoded "/srv/static/uploads/cat.png" "make the sky pink" tt =
  (inr (success "data:image/png;base64,UE5HLURBVEE="), tt).
Proof. vm_compute. reflexivity. Qed.

Example sample_refusal :
  edit_image_with_gemini (list byte)
    (answers {| parts := [text_part "I cannot edit this image."];
                text := inr "I cannot edit this image." |})
    not_found_404 one_picture decoded "/srv/static/uploads/cat.png" "make the sky pink" tt =
  (inr (failed (no_image_message +:+ newline +:+
                "Reason from AI: I cannot edit this image.")), tt).
Proof. vm_compute. reflexivity. Qed.

Example sample_404 :
  edit_image_with_gemini (list byte)
    (answers {| parts := []; text := no_text |})
    not_found_404 one_picture decoded "https://i.redd.it/gone.jpg" "make the sky pink" tt =
  (inr (failed "Failed to download image from URL: 404 Client Error: Not Found for url: https://i.redd.it/gone.jpg"), tt).
Proof. vm_compute. reflexivity. Qed.

Definition text_then_image : Response :=
  {| parts := [text_part "Here is the edited picture.";
               image_part "image/png" png_bytes];
     text := no_text |}.

(** C8 at an answer the code mishandles: the model gives a text part and then
    the picture.  The answer contains inline image data, yet the result is
    [ok: false] with the message that the AI did not return an image: only
    the first part is looked at. *)
Theorem image_after_text_is_reported_missing :
  contains_image text_then_image = true /\
  first_part_has_image text_then_image = false /\
  edit_image_with_gemini (list byte) (answers text_then_image)
    not_found_404 one_picture decoded "/srv/static/uploads/cat.png" "make the sky pink" tt =
  (inr (failed no_image_message), tt).
Proof. vm_compute. split; [reflexivity|]. split; reflexivity. Qed.

(** The equivalence of C8 between [ok: true] and an answer that contains
    inline image data does not hold. *)
Lemma ok_is_not_contains_image :
  ~ (forall Image requests_get disk Image_open generate_content
            image_source prompt b bs (image : Image) r,
       load_image_bytes requests_get disk image_source tt = (inr (b :: bs), tt) ->
       Image_open (b :: bs) = inr image ->
       generate_content (final_prompt prompt) image = inr r ->
       exists result,
         edit_image_with_gemini Image (Some generate_content) requests_get disk
           Image_open image_source prompt tt = (inr result, tt) /\
         (ok result = true <-> contains_image r = true)).
Proof.
  intros H.
  destruct (H (list byte) not_found_404 one_picture decoded
              (fun _ _ => inr text_then_image)
              "/srv/static/uploads/cat.png" "make the sky pink"
              "P"%byte (bytes_of "NG-DATA") png_bytes text_then_image
              eq_refl eq_refl eq_refl)
    as (result & Hrun & Hiff).
  vm_compute in Hrun. injection Hrun as <-.
  destruct Hiff as [_ Hback]. specialize (Hback eq_refl). discriminate Hback.
Qed.

Lemma image_load_failures_are_reported_witness :
  (exists message,
     edit_image_with_gemini (list byte) (answers text_then_image)
       not_found_404 one_picture decoded "https://i.redd.it/gone.jpg" "make the sky pink" tt =
       (inr (failed ("Failed to download image from URL: " +:+ message)), tt) /\
     Str.contains "Failed to download" ("Failed to download image from URL: " +:+ message) = true) /\
  (edit_image_with_gemini (list byte) (answers text_then_image)
     not_found_404 one_picture decoded "/srv/static/uploads/dog.png" "make the sky pink" tt =
     (inr (failed ("Image file not found at path: " +:+ "/srv/static/uploads/dog.png")), tt) /\
   Str.contains "not found" ("Image file not found at path: " +:+ "/srv/static/uploads/dog.png") = true).
Proof.
  split.
  - apply (image_load_failures_are_reported (list byte) not_found_404 one_picture decoded
             (answers text_then_image) "https://i.redd.it/gone.jpg" "make the sky pink")
      with (generate_content := fun _ _ => inr text_then_image).
    + reflexivity.
    + reflexivity.
    + right. exists {| status_code := 404; reason := "Not Found"; content := [] |}.
      split; [reflexivity|]. simpl. lia.
  - apply (image_load_failures_are_reported (list byte) not_found_404 one_picture decoded
             (answers text_then_image) "/srv/static/uploads/dog.png" "make the sky pink")
      with (generate_content := fun _ _ => inr text_then_image).
    + reflexivity.
    + reflexivity.
    + reflexivity.
Defined.

(** C9 as the specification words it fails: without a configured vision
    model the call ends before it looks at the source, and a local path where
    no file is gets the message of the missing model. *)
Lemma unconfigured_model_hides_missing_file :
  ~ (forall Image vision_model requests_get disk Image_open image_source prompt,
       Str.startswith_any image_source ["http://"; "https://"] = false ->
       disk image_source = Missing ->
       exists message,
         edit_image_with_gemini Image vision_model requests_get disk Image_open
           image_source prompt tt = (inr (failed message), tt) /\
         Str.contains "not found" message = true).
Proof.
  intros H.
  destruct (H (list byte) None not_found_404 one_picture decoded
              "/srv/static/uploads/dog.png" "make the sky pink" eq_refl eq_refl)
    as (message & Hrun & Hfound).
  vm_compute in Hrun. injection Hrun as <-.
  vm_compute in Hfound. discriminate Hfound.
Qed.

Example sample_unconfigured :
  edit_image_with_gemini (list byte) None not_found_404 one_picture decoded
    "/srv/static/uploads/dog.png" "make the sky pink" tt =
  (inr (failed "AI model not configured."), tt).
Proof. reflexivity. Qed.

End AISpec.

(* ===================================================================== *)
(** * More on the cleanup service *)
(* ===================================================================== *)

Module CleanupExtra.

Import Cleanup CleanupSpec.

Ltac run := unfold bind, ret, raise, get, modify, emit, lift; simpl.

(** Bytes measured below a path, zero when nothing is there. *)
Definition bytes_below (m : gmap string (gmap string dirent)) (path : string) : Z :=
  match m !! path with
  | Some folder => total_bytes folder
  | None => 0
  end.

Lemma reap_loop_nothing_to_do path cutoff l : forall s folder c,
  fs s !! path = Some folder ->
  (forall k d, folder !! k = Some d -> reaped cutoff d = false) ->
  reap_loop path cutoff l c s = (inr c, s).
Proof.
  induction l as [|k l IH]; intros s folder c Hf Hnone; [reflexivity|].
  simpl. unfold bind at 1. rewrite (reap_one_run _ _ _ _ _ Hf).
  destruct (folder !! k) as [d|] eqn:Hk.
  - rewrite (Hnone k d Hk). rewrite (IH s folder (c + 0) Hf Hnone).
    do 2 f_equal. lia.
  - rewrite (IH s folder (c + 0) Hf Hnone). do 2 f_equal. lia.
Qed.

Lemma clear_old_files_nothing_to_do now path hours s folder :
  fs s !! path = Some folder ->
  (forall k d, folder !! k = Some d -> reaped (now - hours * 60 * 60) d = false) ->
  clear_old_files now path hours s =
    (inr 0, State (fs s) (log s ++ [EvReap path hours])).
Proof.
  intros Hf Hnone. unfold clear_old_files. run. rewrite Hf.
  apply (reap_loop_nothing_to_do _ _ _ _ folder); [exact Hf|exact Hnone].
Qed.

(** X1: in a folder where no file is old enough (every entry that
    [os.path.isfile] accepts was modified at or after the cutoff), the Reaper
    removes nothing, records no removal and returns 0. *)
Theorem clear_old_files_young_folder now path hours s folder :
  fs s !! path = Some folder ->
  (forall k d, folder !! k = Some d -> isfile (entry d) = true ->
     now - hours * 60 * 60 <= getmtime (entry d)) ->
  clear_old_files now path hours s =
    (inr 0, State (fs s) (log s ++ [EvReap path hours])).
Proof.
  intros Hf Hyoung. apply (clear_old_files_nothing_to_do _ _ _ _ folder Hf).
  intros k d Hk. unfold reaped, expired.
  destruct (isfile (entry d)) eqn:Hfile; [|reflexivity].
  specialize (Hyoung k d Hk Hfile).
  replace (getmtime (entry d) <? now - hours * 60 * 60) with false; [reflexivity|].
  symmetry. apply Z.ltb_ge. exact Hyoung.
Qed.

Definition young_folder : gmap string dirent :=
  <["new.png" := Dirent (Regular 10 5000) false]>
    (<["sub" := Dirent (Directory [Regular 7 1]) false]>
       (<["link" := Dirent (Symlink None) false]> ∅)).

Lemma clear_old_files_young_folder_witness :
  clear_old_files 4000 "up" 1 (State (<["up" := young_folder]> ∅) []) =
    (inr 0, State (<["up" := young_folder]> ∅) ([] ++ [EvReap "up" 1])).
Proof.
  pose proof (clear_old_files_young_folder 4000 "up" 1
                (State (<["up" := young_folder]> ∅) []) young_folder) as H.
  cbn [fs log] in H. apply H.
  - vm_compute. reflexivity.
  - intros k d Hk Hfile.
    destruct (decide (k = "new.png")) as [->|Hne].
    + vm_compute in Hk. injection Hk as <-. vm_compute. discriminate.
    + unfold young_folder in Hk. rewrite lookup_insert_ne in Hk by congruence.
      destruct (decide (k = "sub")) as [->|Hne2].
      * rewrite lookup_insert_eq in Hk. injection Hk as <-. discriminate Hfile.
      * rewrite lookup_insert_ne in Hk by congruence.
        destruct (decide (k = "link")) as [->|Hne3].
        -- rewrite lookup_insert_eq in Hk. injection Hk as <-. discriminate Hfile.
        -- rewrite lookup_insert_ne, lookup_empty in Hk by congruence. discriminate.
Defined.

(** X2: sweeping twice is sweeping once.  After a sweep, a second sweep of
    the same folder with a cutoff that is not later removes nothing and
    returns 0: what the first sweep left was too young or could not be
    removed. *)
Theorem clear_old_files_twice now1 now2 path hours1 hours2 s r1 s1 :
  now2 - hours2 * 60 * 60 <= now1 - hours1 * 60 * 60 ->
  clear_old_files now1 path hours1 s = (r1, s1) ->
  clear_old_files now2 path hours2 s1 =
    (inr 0, State (fs s1) (log s1 ++ [EvReap path hours2])).
Proof.
  intros Hle Hrun1.
  destruct (fs s !! path) as [folder|] eqn:Hf.
  - destruct (clear_old_files_run now1 path hours1 s folder Hf)
      as (s' & removes & Hrun & Hfs & _ & _).
    rewrite Hrun in Hrun1. injection Hrun1 as _ <-.
    apply (clear_old_files_nothing_to_do _ _ _ _
             (filter (fun kd => reaped (now1 - hours1 * 60 * 60) kd.2 = false) folder)).
    + rewrite Hfs. apply lookup_insert_eq.
    + intros k d Hk. apply map_lookup_filter_Some in Hk as [_ Hkept]. simpl in Hkept.
      unfold reaped, expired in *.
      destruct (isfile (entry d)); [|reflexivity]. simpl in *.
      destruct (locked d); [by rewrite andb_false_r|]. simpl in *.
      rewrite andb_true_r in *. apply Z.ltb_ge. apply Z.ltb_ge in Hkept. lia.
  - unfold clear_old_files in Hrun1. revert Hrun1. run. rewrite Hf.
    intros Hrun1. injection Hrun1 as _ <-.
    unfold clear_old_files. run. rewrite Hf. reflexivity.
Qed.

Lemma clear_old_files_twice_witness :
  clear_old_files 4000 "up" 1 (snd (clear_old_files 4000 "up" 1 sample_state)) =
    (inr 0, State (fs (snd (clear_old_files 4000 "up" 1 sample_state)))
                  (log (snd (clear_old_files 4000 "up" 1 sample_state)) ++ [EvReap "up" 1])).
Proof.
  apply (clear_old_files_twice 4000 4000 "up" 1 1 sample_state
           (fst (clear_old_files 4000 "up" 1 sample_state))).
  - lia.
  - destruct (clear_old_files 4000 "up" 1 sample_state). reflexivity.
Defined.

(** ** Bytes *)

Lemma total_bytes_insert k d (m : gmap string dirent) :
  m !! k = None ->
  total_bytes (<[k := d]> m) = total_bytes m + walk_bytes (entry d).
Proof.
  intros Hk. unfold total_bytes.
  rewrite map_fold_insert_L; [reflexivity| |exact Hk].
  intros. lia.
Qed.

Lemma total_bytes_split cutoff (m : gmap string dirent) :
  total_bytes (filter (fun kd => reaped cutoff kd.2 = true) m) +
  total_bytes (filter (fun kd => reaped cutoff kd.2 = false) m) = total_bytes m.
Proof.
  induction m as [|k d m Hk IH] using map_ind.
  - rewrite !map_filter_empty. reflexivity.
  - rewrite total_bytes_insert by exact Hk.
    assert (Hk1 : filter (fun kd : string * dirent => reaped cutoff kd.2 = true) m !! k = None)
      by (apply map_lookup_filter_None; left; exact Hk).
    assert (Hk2 : filter (fun kd : string * dirent => reaped cutoff kd.2 = false) m !! k = None)
      by (apply map_lookup_filter_None; left; exact Hk).
    destruct (reaped cutoff d) eqn:Hr.
    + rewrite map_filter_insert_True by exact Hr.
      rewrite map_filter_insert_not' by (simpl; congruence).
      rewrite total_bytes_insert by exact Hk1. lia.
    + rewrite map_filter_insert_not' by (simpl; congruence).
      rewrite map_filter_insert_True by exact Hr.
      rewrite total_bytes_insert by exact Hk2. lia.
Qed.

Lemma total_bytes_nonneg (m : gmap string dirent) :
  (forall k d, m !! k = Some d -> 0 <= walk_bytes (entry d)) ->
  0 <= total_bytes m.
Proof.
  induction m as [|k d m Hk IH] using map_ind; intros Hpos.
  - unfold total_bytes. rewrite map_fold_empty. lia.
  - rewrite total_bytes_insert by exact Hk.
    assert (0 <= walk_bytes (entry d)) by (apply (Hpos k); apply lookup_insert_eq).
    assert (0 <= total_bytes m).
    { apply IH. intros j dj Hj. apply (Hpos j).
      rewrite lookup_insert_ne; [exact Hj|]. congruence. }
    lia.
Qed.

(** X3: a sweep frees exactly the bytes of the entries it removes: what
    [get_directory_size] finds in the folder afterwards is what it found
    before less the bytes of the removed entries; with sizes that are not
    negative, the figure never grows. *)
Theorem clear_old_files_frees_bytes now path hours s folder r s' :
  fs s !! path = Some folder ->
  clear_old_files now path hours s = (r, s') ->
  bytes_below (fs s') path =
    total_bytes folder -
    total_bytes (filter (fun kd => reaped (now - hours * 60 * 60) kd.2 = true) folder) /\
  ((forall k d, folder !! k = Some d -> 0 <= walk_bytes (entry d)) ->
   bytes_below (fs s') path <= bytes_below (fs s) path).
Proof.
  intros Hf Hrun.
  destruct (clear_old_files_run now path hours s folder Hf)
    as (s2 & removes & Hrun2 & Hfs & _ & _).
  rewrite Hrun2 in Hrun. injection Hrun as _ <-.
  pose proof (total_bytes_split (now - hours * 60 * 60) folder) as Hsplit.
  unfold bytes_below. rewrite Hfs, lookup_insert_eq, Hf. split; [lia|].
  intros Hpos.
  assert (0 <= total_bytes (filter (fun kd => reaped (now - hours * 60 * 60) kd.2 = true) folder)).
  { apply total_bytes_nonneg. intros k d Hk.
    apply map_lookup_filter_Some in Hk as [Hk _]. eauto. }
  lia.
Qed.

Lemma clear_old_files_frees_bytes_witness :
  bytes_below (fs (snd (clear_old_files 4000 "up" 1 sample_state))) "up" =
    total_bytes sample_folder -
    total_bytes (filter (fun kd => reaped (4000 - 1 * 60 * 60) kd.2 = true) sample_folder) /\
  ((forall k d, sample_folder !! k = Some d -> 0 <= walk_bytes (entry d)) ->
   bytes_below (fs (snd (clear_old_files 4000 "up" 1 sample_state))) "up"
     <= bytes_below (fs sample_state) "up").
Proof.
  apply (clear_old_files_frees_bytes 4000 "up" 1 sample_state sample_folder
           (fst (clear_old_files 4000 "up" 1 sample_state))).
  - vm_compute. reflexivity.
  - destruct (clear_old_files 4000 "up" 1 sample_state). reflexivity.
Defined.

Example sample_bytes :
  bytes_below (fs sample_state) "up" = 37 /\
  bytes_below (fs (snd (clear_old_files 4000 "up" 1 sample_state))) "up" = 27.
Proof. vm_compute. split; reflexivity. Qed.

(** ** The policy as a whole *)

(** The folders after a sweep of [path] with [cutoff]. *)
Definition swept (cutoff : Z) (path : string) (m : gmap string (gmap string dirent))
    : gmap string (gmap string dirent) :=
  match m !! path with
  | Some folder => <[path := filter (fun kd => reaped cutoff kd.2 = false) folder]> m
  | None => m
  end.

Lemma clear_old_files_swept now path hours s :
  exists n s',
    clear_old_files now path hours s = (inr n, s') /\
    fs s' = swept (now - hours * 60 * 60) path (fs s).
Proof.
  unfold swept. destruct (fs s !! path) as [folder|] eqn:Hf.
  - destruct (clear_old_files_run now path hours s folder Hf)
      as (s' & removes & Hrun & Hfs & _ & _).
    eauto.
  - eexists _, _. unfold clear_old_files. run. rewrite Hf. split; reflexivity.
Qed.

(** The folders after a run of the policy. *)
Lemma run_cleanup_if_needed_run MAX_STORAGE_MB now1 now2 s :
  let ceiling := match MAX_STORAGE_MB with Some v => v | None => 500 end in
  let fs1 := ensure edited_path (ensure uploads_path (fs s)) in
  let usage := Qplus (folder_mb fs1 uploads_path) (folder_mb fs1 edited_path) in
  exists s',
    run_cleanup_if_needed MAX_STORAGE_MB now1 now2 s = (inr tt, s') /\
    fs s' =
      if Qle_bool usage (inject_Z ceiling) then fs1
      else swept (now2 - 24 * 60 * 60) edited_path
             (swept (now1 - 24 * 60 * 60) uploads_path fs1).
Proof.
  intros ceiling fs1 usage.
  unfold run_cleanup_if_needed, makedirs, get_directory_size. run.
  fold (ensure uploads_path (fs s)).
  fold (ensure edited_path (ensure uploads_path (fs s))). fold fs1.
  fold (folder_mb fs1 uploads_path). fold (folder_mb fs1 edited_path).
  fold usage. fold ceiling.
  destruct (Qle_bool usage (inject_Z ceiling)); simpl.
  - eexists. split; reflexivity.
  - set (s1 := State fs1 _).
    destruct (clear_old_files_swept now1 uploads_path 24 s1) as (n1 & s2 & Hrun1 & Hfs1).
    destruct (clear_old_files_swept now2 edited_path 24 s2) as (n2 & s3 & Hrun2 & Hfs2).
    rewrite Hrun1, Hrun2. eexists. split; [reflexivity|]. simpl.
    rewrite Hfs2, Hfs1. reflexivity.
Qed.

Lemma tracked_paths_differ : uploads_path <> edited_path.
Proof. discriminate. Qed.

(** X4: what a run of the policy above the ceiling does to the two tracked
    folders.  The uploads folder loses exactly its entries that are expired
    at [now1 - 24 h] and can be removed, the edited-images folder exactly
    those expired at [now2 - 24 h]; both sweeps always happen, however much
    space the first one frees. *)
Theorem run_cleanup_if_needed_effect MAX_STORAGE_MB now1 now2 s r s' uploads edited :
  let ceiling := match MAX_STORAGE_MB with Some v => v | None => 500 end in
  let fs1 := ensure edited_path (ensure uploads_path (fs s)) in
  let usage := Qplus (folder_mb fs1 uploads_path) (folder_mb fs1 edited_path) in
  run_cleanup_if_needed MAX_STORAGE_MB now1 now2 s = (r, s') ->
  Qlt (inject_Z ceiling) usage ->
  fs1 !! uploads_path = Some uploads ->
  fs1 !! edited_path = Some edited ->
  fs s' !! uploads_path =
    Some (filter (fun kd => reaped (now1 - 24 * 60 * 60) kd.2 = false) uploads) /\
  fs s' !! edited_path =
    Some (filter (fun kd => reaped (now2 - 24 * 60 * 60) kd.2 = false) edited).
Proof.
  intros ceiling fs1 usage Hrun Habove Hu He.
  destruct (run_cleanup_if_needed_run MAX_STORAGE_MB now1 now2 s) as (s2 & Hrun2 & Hfs).
  rewrite Hrun2 in Hrun. injection Hrun as _ <-.
  fold fs1 in Hfs. fold usage in Hfs. fold ceiling in Hfs.
  destruct (Qle_bool usage (inject_Z ceiling)) eqn:Hcmp.
  { apply Qle_bool_iff in Hcmp. exfalso. exact (Qlt_not_le _ _ Habove Hcmp). }
  pose proof tracked_paths_differ as Hne.
  assert (H1 : swept (now1 - 24 * 60 * 60) uploads_path fs1 =
               <[uploads_path := filter (fun kd => reaped (now1 - 24 * 60 * 60) kd.2 = false) uploads]> fs1)
    by (unfold swept; rewrite Hu; reflexivity).
  assert (H2 : swept (now1 - 24 * 60 * 60) uploads_path fs1 !! edited_path = Some edited)
    by (rewrite H1, lookup_insert_ne by exact Hne; exact He).
  rewrite Hfs. clear Hfs.
  set (m1 := swept (now1 - 24 * 60 * 60) uploads_path fs1) in *.
  unfold swept. rewrite H2. split.
  - rewrite lookup_insert_ne by congruence. rewrite H1. apply lookup_insert_eq.
  - apply lookup_insert_eq.
Qed.

Lemma run_cleanup_if_needed_effect_witness :
  let s := State (<[uploads_path := <["old.png" := Dirent (Regular (600 * 1048576) 0) false]>
                                      (<["new.png" := Dirent (Regular 5 99000) false]> ∅)]> ∅) [] in
  let uploads : gmap string dirent :=
    <["old.png" := Dirent (Regular (600 * 1048576) 0) false]>
      (<["new.png" := Dirent (Regular 5 99000) false]> ∅) in
  fs (snd (run_cleanup_if_needed None 100000 100001 s)) !! uploads_path =
    Some (filter (fun kd => reaped (100000 - 24 * 60 * 60) kd.2 = false) uploads) /\
  fs (snd (run_cleanup_if_needed None 100000 100001 s)) !! edited_path =
    Some (filter (fun kd => reaped (100001 - 24 * 60 * 60) kd.2 = false) ∅).
Proof.
  intros s uploads.
  apply (run_cleanup_if_needed_effect None 100000 100001 s
           (fst (run_cleanup_if_needed None 100000 100001 s))).
  - destruct (run_cleanup_if_needed None 100000 100001 s). reflexivity.
  - vm_compute. reflexivity.
  - vm_compute. reflexivity.
  - vm_compute. reflexivity.
Defined.

Lemma ensure_stat path m q k d :
  (match ensure path m !! q with Some folder => folder !! k | None => None end) = Some d ->
  (match m !! q with Some folder => folder !! k | None => None end) = Some d.
Proof.
  unfold ensure. destruct (m !! path) eqn:Hp; [tauto|].
  destruct (decide (path = q)) as [->|Hne].
  - rewrite lookup_insert_eq, lookup_empty. discriminate.
  - rewrite lookup_insert_ne by exact Hne. tauto.
Qed.

Lemma swept_stat cutoff path m q k d :
  (match swept cutoff path m !! q with Some folder => folder !! k | None => None end) = Some d ->
  (match m !! q with Some folder => folder !! k | None => None end) = Some d.
Proof.
  unfold swept. destruct (m !! path) as [folder|] eqn:Hp; [|tauto].
  destruct (decide (path = q)) as [->|Hne].
  - rewrite lookup_insert_eq, Hp. intros Hk.
    apply map_lookup_filter_Some in Hk as [Hk _]. exact Hk.
  - rewrite lookup_insert_ne by exact Hne. tauto.
Qed.

Definition is_directory (n : node) : bool :=
  match n with Directory _ => true | _ => false end.

(** X5: the policy creates no file, alters none, and removes nothing outside
    the two tracked folders.  Whatever file or link is found in whatever
    folder after a run was there before the run, unchanged; and whatever
    entry a folder other than the two tracked ones had is still there. *)
Theorem run_cleanup_if_needed_only_removes MAX_STORAGE_MB now1 now2 s r s' :
  run_cleanup_if_needed MAX_STORAGE_MB now1 now2 s = (r, s') ->
  (forall path filename d,
     is_directory (entry d) = false ->
     stat s' path filename = Some d -> stat s path filename = Some d) /\
  (forall path filename d,
     path <> uploads_path -> path <> edited_path ->
     stat s path filename = Some d -> stat s' path filename = Some d).
Proof.
  intros Hrun.
  destruct (run_cleanup_if_needed_run MAX_STORAGE_MB now1 now2 s) as (s2 & Hrun2 & Hfs).
  rewrite Hrun2 in Hrun. injection Hrun as _ <-. split.
  - intros path filename d _. unfold stat. rewrite Hfs.
    destruct (Qle_bool _ _).
    + intros H. by apply ensure_stat, ensure_stat in H.
    + intros H. by apply swept_stat, swept_stat, ensure_stat, ensure_stat in H.
  - intros path filename d Hu He. unfold stat.
    assert (Hsame : fs s2 !! path = fs s !! path); [|by rewrite Hsame].
    rewrite Hfs.
    assert (Hens : ensure edited_path (ensure uploads_path (fs s)) !! path = fs s !! path).
    { unfold ensure.
      destruct (fs s !! uploads_path) eqn:H1.
      - destruct (fs s !! edited_path) eqn:H2; [reflexivity|].
        by rewrite lookup_insert_ne.
      - destruct (<[uploads_path:=∅]> (fs s) !! edited_path) eqn:H2.
        + by rewrite lookup_insert_ne.
        + by rewrite !lookup_insert_ne. }
    destruct (Qle_bool _ _); [exact Hens|].
    unfold swept at 1.
    destruct (swept _ uploads_path _ !! edited_path) eqn:H2.
    + rewrite lookup_insert_ne by congruence.
      unfold swept. destruct (_ !! uploads_path) eqn:H1; [|exact Hens].
      rewrite lookup_insert_ne by congruence. exact Hens.
    + unfold swept. destruct (_ !! uploads_path) eqn:H1; [|exact Hens].
      rewrite lookup_insert_ne by congruence. exact Hens.
Qed.

Definition crowded : state :=
  State (<[uploads_path := <["old.png" := big_file]> (<["new.png" := Dirent (Regular (600 * 1048576) 99000) false]> ∅)]>
           (<["templates" := <["index.html" := Dirent (Regular 100 0) false]> ∅]> ∅)) [].

Lemma run_cleanup_if_needed_only_removes_witness :
  (forall path filename d,
     is_directory (entry d) = false ->
     stat (snd (run_cleanup_if_needed None 100000 100001 crowded)) path filename = Some d ->
     stat crowded path filename = Some d) /\
  (forall path filename d,
     path <> uploads_path -> path <> edited_path ->
     stat crowded path filename = Some d ->
     stat (snd (run_cleanup_if_needed None 100000 100001 crowded)) path filename = Some d).
Proof.
  apply (run_cleanup_if_needed_only_removes None 100000 100001 crowded
           (fst (run_cleanup_if_needed None 100000 100001 crowded))).
  destruct (run_cleanup_if_needed None 100000 100001 crowded). reflexivity.
Defined.

(** The sweep goes by age, not by need: one of two large files is old and
    goes; the folder is still above the ceiling afterwards. *)
Example cleanup_may_stay_above_ceiling :
  let s' := snd (run_cleanup_if_needed None 100000 100001 crowded) in
  stat s' uploads_path "old.png" = None /\
  stat s' uploads_path "new.png" = Some (Dirent (Regular (600 * 1048576) 99000) false) /\
  stat s' "templates" "index.html" = Some (Dirent (Regular 100 0) false) /\
  Qle_bool (folder_mb (fs s') uploads_path) (inject_Z 500) = false.
Proof. vm_compute. split; [|split; [|split]]; reflexivity. Qed.

End CleanupExtra.

(* ===================================================================== *)
(** * More on the post resolver *)
(* ===================================================================== *)

Module RedditExtra.

Import Reddit RedditSpec.

(** [get_reddit_posts] of [main.py]: the route behind [/api/posts].  The
    [HTTPException] with status 500 that the handler raises is the answer
    [PostsError500]. *)
Inductive PostsResponse :=
| PostsOk (posts : list Post)
| PostsError500 (detail : string).

Definition get_reddit_posts (isoformat : Z -> string) (now : Z) (env : Credentials)
    : M state PostsResponse :=
  try_except
    (bind (get_photoshop_request_posts isoformat now env 10 false)
          (fun posts => ret (PostsOk posts)))
    [Exception]
    (fun e => ret (PostsError500 (str e))).

Section Resolver.

Variable isoformat : Z -> string.
Variable now : Z.

(** A post made from a submission of the listing that is not older than 24
    hours, with the non-empty image URL found for it. *)
Definition fresh_from (submissions : list Submission) (p : Post) : Prop :=
  exists submission,
    In submission submissions /\
    p = post_data isoformat submission (imageUrl p) /\
    image_url_of submission = Some (imageUrl p) /\
    Str.nonempty (imageUrl p) = true /\
    now - 24 * 60 * 60 <= sub_created_utc submission.

Lemma qualifying_fresh submissions :
  List.Forall (fresh_from submissions) (qualifying isoformat now submissions).
Proof.
  induction submissions as [|submission rest IH]; [constructor|].
  assert (Hrest : List.Forall (fresh_from (submission :: rest))
                    (qualifying isoformat now rest)).
  { eapply List.Forall_impl; [|exact IH].
    intros p (sub & Hin & Hp). exists sub. split; [right; exact Hin|exact Hp]. }
  unfold qualifying. simpl. unfold qualifies at 1.
  destruct (Z.ltb_spec (sub_created_utc submission) (now - 24 * 60 * 60)) as [Hold|Hnew];
    [exact Hrest|].
  destruct (image_url_of submission) as [url|] eqn:Hurl; [|exact Hrest].
  destruct (Str.nonempty url) eqn:Hne; [|exact Hrest].
  simpl. constructor; [|exact Hrest].
  exists submission. simpl. repeat split; try assumption. left. reflexivity.
Qed.

(** What a call leaves in the cache file: the file as it was, the fresh
    posts it returns, or a cut-off file. *)
Lemma cache_after_call env limit cache_flag s r s' :
  get_photoshop_request_posts isoformat now env limit cache_flag s = (r, s') ->
  cache s' = cache s \/
  (exists mid_character, fault s = DumpFails mid_character /\ cache s' = torn mid_character) \/
  (exists posts,
     cache_flag = false /\ cache s' = Holds posts /\ r = inr posts /\ posts <> [] /\
     List.Forall (fresh_from (yielded (live s limit))) posts).
Proof.
  destruct cache_flag.
  - rewrite get_photoshop_request_posts_cached_run.
    destruct (instance env); intros H; injection H as _ <-; left; reflexivity.
  - rewrite get_photoshop_request_posts_run. unfold fell_back, found_nothing.
    destruct (instance env) as [e|[client|]];
      [intros H; injection H as _ <-; left; reflexivity|
      |intros H; injection H as _ <-; left; reflexivity].
    destruct (failure (live s limit));
      [intros H; injection H as _ <-; left; reflexivity|].
    pose proof (qualifying_fresh (yielded (live s limit))) as Hfresh.
    destruct (qualifying isoformat now (yielded (live s limit))) as [|p ps].
    { destruct (fallback isoformat now (cache s));
        intros H; injection H as _ <-; left; reflexivity. }
    destruct (fault s) as [| |mid] eqn:Hw.
    + intros H. injection H as <- <-. right. right. exists (p :: ps).
      repeat split; try assumption. discriminate.
    + intros H; injection H as _ <-; left; reflexivity.
    + intros H; injection H as _ <-. right. left. exists mid. split; reflexivity.
Qed.

(** X6: the cache file only ever receives live data.  A post list found in
    the cache file after a call was in it before the call, or the call had
    [cache=False] and the list is the one it returns: a non-empty list of
    posts, each made from a submission the listing yielded, not older than
    24 hours, with a non-empty image URL.  Mock posts and empty lists are
    never written. *)
Theorem cache_receives_only_fresh_posts env limit cache_flag s r s' held :
  get_photoshop_request_posts isoformat now env limit cache_flag s = (r, s') ->
  cache s' = Holds held ->
  cache s = Holds held \/
  (cache_flag = false /\ r = inr held /\ held <> [] /\
   List.Forall (fresh_from (yielded (live s limit))) held).
Proof.
  intros Hrun Hheld.
  destruct (cache_after_call env limit cache_flag s r s' Hrun)
    as [Hsame|[(mid & _ & Htorn)|(posts & Hflag & Hc & Hr & Hne & Hfresh)]].
  - left. congruence.
  - rewrite Htorn in Hheld. destruct mid; discriminate Hheld.
  - right. rewrite Hc in Hheld. injection Hheld as <-. repeat split; assumption.
Qed.

(** X7: a save that fails midway costs both the fresh posts and the last
    snapshot.  With a client, a listing that ends without raising and
    yields a qualifying submission, and a [json.dump] that raises, the call
    leaves the cache file cut off, whatever it held, and falls back on that
    very file: it returns the mock posts, or raises [UnicodeDecodeError]
    when the cut went through a character. *)
Theorem failed_dump_destroys_snapshot env limit s client mid_character :
  get_reddit_instance env s = (inr (Some client), s) ->
  failure (live s limit) = None ->
  qualifying isoformat now (yielded (live s limit)) <> [] ->
  fault s = DumpFails mid_character ->
  exists r s',
    get_photoshop_request_posts isoformat now env limit false s = (r, s') /\
    cache s' = torn mid_character /\
    log s' = log s ++ [EvQuery limit; EvTear; EvLoad] /\
    (mid_character = false -> r = inr (get_mock_posts isoformat now)) /\
    (mid_character = true -> exists e, r = inl e /\ exn_cls e = UnicodeDecodeError).
Proof.
  intros Hi Hf Hq Hw. rewrite get_reddit_instance_run in Hi. injection Hi as Hi.
  rewrite get_photoshop_request_posts_run, Hi, Hf, Hw.
  destruct (qualifying isoformat now (yielded (live s limit))) as [|p ps];
    [congruence|].
  eexists _, _. split; [reflexivity|]. split; [reflexivity|]. split; [reflexivity|].
  split; intros ->.
  - reflexivity.
  - eexists. split; reflexivity.
Qed.

(** X9: with one of the four checked credentials unset or empty, a call with
    [cache=False] does what a call with [cache=True] does: it never asks the
    live source and never writes, it reads the cache once, and it returns
    or raises as that read decides.  [REDDIT_USER_AGENT] is not among the
    four. *)
Theorem missing_credential_never_queries env limit s :
  truthy (REDDIT_CLIENT_ID env) = false \/ truthy (REDDIT_CLIENT_SECRET env) = false \/
  truthy (REDDIT_USERNAME env) = false \/ truthy (REDDIT_PASSWORD env) = false ->
  get_photoshop_request_posts isoformat now env limit false s =
    get_photoshop_request_posts isoformat now env limit true s /\
  exists r s',
    get_photoshop_request_posts isoformat now env limit false s = (r, s') /\
    r = fallback isoformat now (cache s) /\
    log s' = log s ++ [EvLoad] /\
    cache s' = cache s.
Proof.
  intros Hmiss.
  rewrite get_photoshop_request_posts_run, get_photoshop_request_posts_cached_run.
  assert (Hnone : instance env = inr None).
  { unfold instance. simpl.
    destruct Hmiss as [H|[H|[H|H]]]; rewrite H; simpl;
      rewrite ?andb_false_r; reflexivity. }
  rewrite Hnone. split; [reflexivity|].
  eexists _, _. split; [reflexivity|]. split; [reflexivity|]. split; reflexivity.
Qed.

(** X10: [/api/posts] never lets an exception through and never answers
    with an empty list.  The route asks for at most 10 submissions; it
    answers with posts, at least one, or with status 500 and the text of
    the exception that left the resolver: the constructor's, when the user
    agent is missing, or the cache read's, when the cache file is not UTF-8
    or holds a value without a length. *)
Theorem get_reddit_posts_answers env s :
  exists s',
    (exists posts,
       get_reddit_posts isoformat now env s = (inr (PostsOk posts), s') /\
       posts <> []) \/
    (exists e,
       get_reddit_posts isoformat now env s = (inr (PostsError500 (str e)), s') /\
       (instance env = inl e \/ read (cache s) = inl e \/
        exists mid_character,
          fault s = DumpFails mid_character /\ read (torn mid_character) = inl e)).
Proof.
  unfold get_reddit_posts. rewrite try_except_Exception. unfold bind.
  destruct (get_photoshop_request_posts isoformat now env 10 false s) as [[e|posts] s']
    eqn:Hrun.
  - exists s'. right. exists e. split; [reflexivity|].
    rewrite get_photoshop_request_posts_run in Hrun. unfold fell_back, found_nothing in Hrun.
    assert (Hfb : forall c, fallback isoformat now c = inl e -> read c = inl e).
    { intros c. unfold fallback. destruct (read c) as [e'|[|p ps]]; congruence. }
    destruct (instance env) as [e'|[client|]].
    + left. congruence.
    + destruct (failure (live s 10)).
      { right. left. apply Hfb. congruence. }
      destruct (qualifying isoformat now (yielded (live s 10))) as [|p ps].
      { right. left. apply Hfb.
        destruct (fallback isoformat now (cache s)); congruence. }
      destruct (fault s) as [| |mid]; [discriminate Hrun| |].
      * right. left. apply Hfb. congruence.
      * right. right. exists mid. split; [reflexivity|]. apply Hfb. congruence.
    + right. left. apply Hfb. congruence.
  - exists s'. left. exists posts. split; [reflexivity|].
    rewrite get_photoshop_request_posts_run in Hrun. unfold fell_back, found_nothing in Hrun.
    destruct (instance env) as [e'|[client|]]; [discriminate Hrun| |].
    + destruct (failure (live s 10)).
      { injection Hrun as H _. exact (fallback_nonempty _ _ _ _ H). }
      destruct (qualifying isoformat now (yielded (live s 10))) as [|p ps].
      { destruct (fallback isoformat now (cache s)) as [e'|found] eqn:Hfb;
          [discriminate Hrun|].
        injection Hrun as <- _. exact (fallback_nonempty _ _ _ _ Hfb). }
      destruct (fault s) as [| |mid].
      * injection Hrun as <- _. discriminate.
      * injection Hrun as H _. exact (fallback_nonempty _ _ _ _ H).
      * injection Hrun as H _. exact (fallback_nonempty _ _ _ _ H).
    + injection Hrun as H _. exact (fallback_nonempty _ _ _ _ H).
Qed.

End Resolver.

(** X8: what a call with [cache=False] returned is what the next call with
    [cache=True] returns, when that call gets past the constructor: the
    fresh posts it saved, or the cached posts it fell back on.  The one
    exception is the mock list, which each call stamps with its own time. *)
Theorem cache_mode_repeats_last_answer isoformat now1 now2 env1 env2 limit1 limit2
    s posts s1 reddit :
  get_photoshop_request_posts isoformat now1 env1 limit1 false s = (inr posts, s1) ->
  get_reddit_instance env2 s1 = (inr reddit, s1) ->
  exists s2,
    get_photoshop_request_posts isoformat now2 env2 limit2 true s1 = (inr posts, s2) \/
    (posts = get_mock_posts isoformat now1 /\
     get_photoshop_request_posts isoformat now2 env2 limit2 true s1 =
       (inr (get_mock_posts isoformat now2), s2)).
Proof.
  intros Hrun Hi. rewrite get_reddit_instance_run in Hi. injection Hi as Hi.
  rewrite get_photoshop_request_posts_cached_run, Hi.
  assert (Hcases :
    fallback isoformat now1 (cache s1) = inr posts \/
    (exists p ps, posts = p :: ps /\ cache s1 = Holds (p :: ps))).
  { rewrite get_photoshop_request_posts_run in Hrun.
    unfold fell_back, found_nothing in Hrun.
    destruct (instance env1) as [e|[client|]]; [discriminate Hrun| |].
    - destruct (failure (live s limit1)).
      { injection Hrun as Hr <-. left. exact Hr. }
      destruct (qualifying isoformat now1 (yielded (live s limit1))) as [|p ps].
      { destruct (fallback isoformat now1 (cache s)) eqn:Hfb; [discriminate Hrun|].
        injection Hrun as <- <-. left. exact Hfb. }
      destruct (fault s) as [| |mid].
      + injection Hrun as <- <-. right. eauto.
      + injection Hrun as Hr <-. left. exact Hr.
      + injection Hrun as Hr <-. left. exact Hr.
    - injection Hrun as Hr <-. left. exact Hr. }
  eexists. destruct Hcases as [Hfb|(p & ps & -> & Hc)].
  - unfold fallback in *. destruct (read (cache s1)) as [e|[|p ps]].
    + discriminate Hfb.
    + right. injection Hfb as <-. split; reflexivity.
    + left. injection Hfb as <-. reflexivity.
  - left. rewrite Hc. reflexivity.
Qed.

Lemma cache_receives_only_fresh_posts_witness :
  let s := answering sample_listing Absent NoFault in
  let posts := qualifying sample_iso 200000 sample_listing in
  cache s = Holds posts \/
  (false = false /\ @inr exn _ posts = inr posts /\ posts <> [] /\
   List.Forall (fresh_from sample_iso 200000 (yielded (live s 50))) posts).
Proof.
  intros s posts.
  apply (cache_receives_only_fresh_posts sample_iso 200000 all_set 50 false s
           (inr posts)
           (State (Holds posts) NoFault (live s) [EvQuery 50; EvSave posts]) posts).
  - vm_compute. reflexivity.
  - reflexivity.
Defined.

Lemma failed_dump_destroys_snapshot_witness :
  let s := answering sample_listing (Holds [old_post]) (DumpFails false) in
  exists r s',
    get_photoshop_request_posts sample_iso 200000 all_set 50 false s = (r, s') /\
    cache s' = torn false /\
    log s' = log s ++ [EvQuery 50; EvTear; EvLoad] /\
    (false = false -> r = inr (get_mock_posts sample_iso 200000)) /\
    (false = true -> exists e, r = inl e /\ exn_cls e = UnicodeDecodeError).
Proof.
  intros s.
  apply (failed_dump_destroys_snapshot sample_iso 200000 all_set 50 s (PrawReddit all_set)).
  - reflexivity.
  - reflexivity.
  - vm_compute. discriminate.
  - reflexivity.
Defined.

Lemma missing_credential_never_queries_witness :
  let env := {| REDDIT_CLIENT_ID := Some "id"; REDDIT_CLIENT_SECRET := Some "secret";
                REDDIT_USER_AGENT := Some "agent"; REDDIT_USERNAME := Some "user";
                REDDIT_PASSWORD := Some "" |} in
  let s := answering sample_listing (Holds [old_post]) NoFault in
  get_photoshop_request_posts sample_iso 200000 env 50 false s =
    get_photoshop_request_posts sample_iso 200000 env 50 true s /\
  exists r s',
    get_photoshop_request_posts sample_iso 200000 env 50 false s = (r, s') /\
    r = fallback sample_iso 200000 (cache s) /\
    log s' = log s ++ [EvLoad] /\
    cache s' = cache s.
Proof.
  intros env s.
  apply (missing_credential_never_queries sample_iso 200000 env 50 s).
  right. right. right. reflexivity.
Defined.

Lemma cache_mode_repeats_last_answer_witness :
  let posts := qualifying sample_iso 200000 sample_listing in
  let s1 := State (Holds posts) NoFault
              (fun _ => {| yielded := sample_listing; failure := None |})
              [EvQuery 50; EvSave posts] in
  exists s2,
    get_photoshop_request_posts sample_iso 300000 none_set 10 true s1 = (inr posts, s2) \/
    (posts = get_mock_posts sample_iso 200000 /\
     get_photoshop_request_posts sample_iso 300000 none_set 10 true s1 =
       (inr (get_mock_posts sample_iso 300000), s2)).
Proof.
  intros posts s1.
  apply (cache_mode_repeats_last_answer sample_iso 200000 300000 all_set none_set 50 10
           (answering sample_listing Absent NoFault) posts s1 None).
  - vm_compute. reflexivity.
  - reflexivity.
Defined.

Example sample_route_500 :
  fst (get_reddit_posts sample_iso 200000 no_agent
         (answering sample_listing (Holds [old_post]) NoFault)) =
    inr (PostsError500 (required_message "user_agent")).
Proof. reflexivity. Qed.

End RedditExtra.

(* ===================================================================== *)
(** * base64: decoding, and the way back *)
(* ===================================================================== *)

Module Base64.

Import AI.

Local Open Scope N_scope.

(** Position of a character in the alphabet ([table_a2b_base64]). *)
Fixpoint position (c : ascii) (s : string) (i : N) : option N :=
  match s with
  | EmptyString => None
  | String d rest => if Ascii.eqb c d then Some i else position c rest (i + 1)
  end.

Definition index_of (c : ascii) : option N := position c alphabet 0.

Definition to_byte (n : N) : byte :=
  match Byte.of_N n with
  | Some b => b
  | None => Byte.x00
  end.

(** The decoder of [binascii.a2b_base64] (not strict): where it is in the
    current group of four, the bits left over from the last character, the
    padding characters seen in a row, and the bytes produced. *)
Record decoder := Decoder {
  quad_pos : N;
  leftchar : N;
  pads : N;
  produced : list byte
}.

Inductive step_result :=
| Continue (d : decoder)
| Done (bytes : list byte).

(** One character.  Padding ends the input once it completes a group; a
    character outside the alphabet is skipped. *)
Definition decode_char (d : decoder) (c : ascii) : step_result :=
  if Ascii.eqb c "="%char then
    if (2 <=? quad_pos d) then
      if (4 <=? quad_pos d + (pads d + 1)) then Done (produced d)
      else Continue (Decoder (quad_pos d) (leftchar d) (pads d + 1) (produced d))
    else Continue d
  else
    match index_of c with
    | None => Continue d
    | Some this_ch =>
        match quad_pos d with
        | 0 => Continue (Decoder 1 this_ch 0 (produced d))
        | 1 =>
            Continue (Decoder 2 (N.land this_ch 15) 0
              (produced d ++ [to_byte (N.lor (N.shiftl (leftchar d) 2) (N.shiftr this_ch 4))]))
        | 2 =>
            Continue (Decoder 3 (N.land this_ch 3) 0
              (produced d ++ [to_byte (N.lor (N.shiftl (leftchar d) 4) (N.shiftr this_ch 2))]))
        | _ =>
            Continue (Decoder 0 0 0
              (produced d ++ [to_byte (N.lor (N.shiftl (leftchar d) 6) this_ch)]))
        end
    end.

Fixpoint decode_from (d : decoder) (s : string) : exn + list byte :=
  match s with
  | EmptyString =>
      if quad_pos d =? 0 then inr (produced d)
      else if quad_pos d =? 1 then
        inl (Exn ValueError "Invalid base64-encoded string: number of data characters cannot be 1 more than a multiple of 4")
      else inl (Exn ValueError "Incorrect padding")
  | String c rest =>
      match decode_char d c with
      | Done bytes => inr bytes
      | Continue d' => decode_from d' rest
      end
  end.

(** Every character below 128: what [str.encode('ascii')] asks for. *)
Fixpoint all_ascii (s : string) : bool :=
  match s with
  | EmptyString => true
  | String c rest => (N_of_ascii c <? 128) && all_ascii rest
  end.

(** [base64.b64decode(s)] on a string. *)
Definition b64decode (s : string) : exn + list byte :=
  if all_ascii s then decode_from (Decoder 0 0 0 []) s
  else inl (Exn ValueError "string argument should contain only ASCII characters").

End Base64.

Module Base64Spec.

Import AI AISpec Base64.

Local Open Scope N_scope.

Example b64decode_rfc4648 :
  List.map b64decode [""; "Zg=="; "Zm8="; "Zm9v"; "Zm9vYg=="; "Zm9vYmE="; "Zm9vYmFy"] =
  List.map (fun s => inr (bytes_of s)) [""; "f"; "fo"; "foo"; "foob"; "fooba"; "foobar"].
Proof. vm_compute. reflexivity. Qed.

Example b64decode_lenient :
  b64decode ("Zm9v" +:+ newline +:+ "YmFy") = inr (bytes_of "foobar") /\
  b64decode "Zm9vY" = inl (Exn ValueError "Invalid base64-encoded string: number of data characters cannot be 1 more than a multiple of 4") /\
  b64decode "Zm9vYg" = inl (Exn ValueError "Incorrect padding").
Proof. vm_compute. split; [|split]; reflexivity. Qed.

(** The values below 64, for checks by enumeration. *)
Definition sextets : list N := List.map N.of_nat (seq 0 64).

Lemma sextets_complete k : k < 64 -> In k sextets.
Proof.
  intros Hk. unfold sextets. apply in_map_iff. exists (N.to_nat k).
  split; [apply N2Nat.id|]. apply in_seq. lia.
Qed.

Lemma check_sextets (P : N -> bool) :
  forallb P sextets = true -> forall k, k < 64 -> P k = true.
Proof.
  intros Hall k Hk. rewrite forallb_forall in Hall. apply Hall, sextets_complete, Hk.
Qed.

Lemma check_sextet_pairs (P : N -> N -> bool) :
  forallb (fun l => forallb (P l) sextets) sextets = true ->
  forall l v, l < 64 -> v < 64 -> P l v = true.
Proof.
  intros Hall l v Hl Hv.
  pose proof (check_sextets _ Hall l Hl) as Hrow. simpl in Hrow.
  exact (check_sextets _ Hrow v Hv).
Qed.

(** A character of the alphabet is read back as its value; it is neither
    the padding character nor outside ASCII. *)
Lemma sextet_read_back k :
  k < 64 ->
  index_of (sextet k) = Some k /\
  Ascii.eqb (sextet k) "="%char = false /\
  (N_of_ascii (sextet k) <? 128) = true /\
  Ascii.eqb (sextet k) ","%char = false.
Proof.
  intros Hk.
  pose proof (check_sextets
    (fun k => match index_of (sextet k) with Some i => i =? k | None => false end
              && negb (Ascii.eqb (sextet k) "="%char)
              && (N_of_ascii (sextet k) <? 128)
              && negb (Ascii.eqb (sextet k) ","%char))
    ltac:(vm_compute; reflexivity) k Hk) as H.
  simpl in H. apply andb_prop in H as [H H4]. apply andb_prop in H as [H H3].
  apply andb_prop in H as [H1 H2].
  destruct (index_of (sextet k)) as [i|]; [|discriminate].
  apply N.eqb_eq in H1. subst i.
  apply negb_true_iff in H2. apply negb_true_iff in H4. auto.
Qed.

Lemma bits_first l v :
  l < 64 -> v < 64 -> N.lor (N.shiftl l 2) (N.shiftr v 4) = l * 4 + v / 16.
Proof.
  intros Hl Hv. apply N.eqb_eq.
  exact (check_sextet_pairs
           (fun l v => N.lor (N.shiftl l 2) (N.shiftr v 4) =? l * 4 + v / 16)
           ltac:(vm_compute; reflexivity) l v Hl Hv).
Qed.

Lemma bits_second l v :
  l < 64 -> v < 64 ->
  N.lor (N.shiftl (N.land l 15) 4) (N.shiftr v 2) = (l mod 16) * 16 + v / 4.
Proof.
  intros Hl Hv. apply N.eqb_eq.
  exact (check_sextet_pairs
           (fun l v => N.lor (N.shiftl (N.land l 15) 4) (N.shiftr v 2) =? (l mod 16) * 16 + v / 4)
           ltac:(vm_compute; reflexivity) l v Hl Hv).
Qed.

Lemma bits_third l v :
  l < 64 -> v < 64 ->
  N.lor (N.shiftl (N.land l 3) 6) v = (l mod 4) * 64 + v.
Proof.
  intros Hl Hv. apply N.eqb_eq.
  exact (check_sextet_pairs
           (fun l v => N.lor (N.shiftl (N.land l 3) 6) v =? (l mod 4) * 64 + v)
           ltac:(vm_compute; reflexivity) l v Hl Hv).
Qed.

Lemma to_byte_to_N b : to_byte (Byte.to_N b) = b.
Proof. unfold to_byte. rewrite Byte.of_to_N. reflexivity. Qed.

Lemma to_N_bound b : Byte.to_N b < 256.
Proof. pose proof (Byte.to_N_bounded b). lia. Qed.

#[local] Ltac Zify.zify_post_hook ::= Z.to_euclidean_division_equations.

(** The four 6-bit values of three bytes, and the way back. *)
Lemma triple_sextets x y z :
  x < 256 -> y < 256 -> z < 256 ->
  let n := x * 65536 + y * 256 + z in
  n / 262144 < 64 /\
  (n / 262144) * 4 + (n / 4096 mod 64) / 16 = x /\
  ((n / 4096 mod 64) mod 16) * 16 + (n / 64 mod 64) / 4 = y /\
  ((n / 64 mod 64) mod 4) * 64 + n mod 64 = z.
Proof. intros Hx Hy Hz n. subst n. repeat split; lia. Qed.

Lemma mod64_bound n : n mod 64 < 64.
Proof. lia. Qed.

(** One character of the alphabet, read by the decoder. *)
Lemma decode_from_alphabet d k rest :
  k < 64 ->
  decode_from d (String (sextet k) rest) =
    decode_from
      (match quad_pos d with
       | 0 => Decoder 1 k 0 (produced d)
       | 1 => Decoder 2 (N.land k 15) 0
                (produced d ++ [to_byte (N.lor (N.shiftl (leftchar d) 2) (N.shiftr k 4))])
       | 2 => Decoder 3 (N.land k 3) 0
                (produced d ++ [to_byte (N.lor (N.shiftl (leftchar d) 4) (N.shiftr k 2))])
       | _ => Decoder 0 0 0
                (produced d ++ [to_byte (N.lor (N.shiftl (leftchar d) 6) k)])
       end) rest.
Proof.
  intros Hk. destruct (sextet_read_back k Hk) as (Hidx & Hpad & _ & _).
  simpl. unfold decode_char. rewrite Hpad, Hidx.
  destruct (quad_pos d) as [|[[|[]|]|[]|]]; reflexivity.
Qed.

Lemma land_15 k : k < 64 -> N.land k 15 < 64 /\ N.land k 15 = k mod 16.
Proof.
  intros Hk.
  pose proof (check_sextets (fun k => (N.land k 15 <? 64) && (N.land k 15 =? k mod 16))
                ltac:(vm_compute; reflexivity) k Hk) as H.
  simpl in H. apply andb_prop in H as [H1 H2].
  apply N.ltb_lt in H1. apply N.eqb_eq in H2. auto.
Qed.

Lemma land_3 k : k < 64 -> N.land k 3 < 64 /\ N.land k 3 = k mod 4.
Proof.
  intros Hk.
  pose proof (check_sextets (fun k => (N.land k 3 <? 64) && (N.land k 3 =? k mod 4))
                ltac:(vm_compute; reflexivity) k Hk) as H.
  simpl in H. apply andb_prop in H as [H1 H2].
  apply N.ltb_lt in H1. apply N.eqb_eq in H2. auto.
Qed.

Lemma bits_second' l v :
  l < 64 -> v < 64 ->
  N.lor (N.shiftl (l mod 16) 4) (N.shiftr v 2) = (l mod 16) * 16 + v / 4.
Proof.
  intros Hl Hv. pose proof (bits_second l v Hl Hv) as H.
  rewrite (proj2 (land_15 l Hl)) in H. exact H.
Qed.

Lemma bits_third' l v :
  l < 64 -> v < 64 ->
  N.lor (N.shiftl (l mod 4) 6) v = (l mod 4) * 64 + v.
Proof.
  intros Hl Hv. pose proof (bits_third l v Hl Hv) as H.
  rewrite (proj2 (land_3 l Hl)) in H. exact H.
Qed.

(** The decoder on the characters of one, two and three bytes. *)
Lemma decode_from_group3 d a b c rest :
  quad_pos d = 0 ->
  let n := Byte.to_N a * 65536 + Byte.to_N b * 256 + Byte.to_N c in
  decode_from d
    (String (sextet (n / 262144)) (String (sextet (n / 4096 mod 64))
      (String (sextet (n / 64 mod 64)) (String (sextet (n mod 64)) rest)))) =
  decode_from (Decoder 0 0 0 (produced d ++ [a; b; c])) rest.
Proof.
  intros Hq n.
  destruct (triple_sextets _ _ _ (to_N_bound a) (to_N_bound b) (to_N_bound c))
    as (H0 & Ha & Hb & Hc). fold n in H0, Ha, Hb, Hc.
  pose proof (mod64_bound (n / 4096)) as H1.
  pose proof (mod64_bound (n / 64)) as H2.
  pose proof (mod64_bound n) as H3.
  rewrite (decode_from_alphabet _ _ _ H0), Hq.
  rewrite (decode_from_alphabet _ _ _ H1). cbn [quad_pos leftchar produced].
  rewrite (decode_from_alphabet _ _ _ H2). cbn [quad_pos leftchar produced].
  rewrite (decode_from_alphabet _ _ _ H3). cbn [quad_pos leftchar produced].
  rewrite (bits_first _ _ H0 H1), Ha.
  rewrite (proj2 (land_15 _ H1)), (bits_second' _ _ H1 H2), Hb.
  rewrite (proj2 (land_3 _ H2)), (bits_third' _ _ H2 H3), Hc.
  rewrite !to_byte_to_N, <- !app_assoc. reflexivity.
Qed.

Lemma decode_from_group1 d a :
  quad_pos d = 0 ->
  let n := Byte.to_N a * 65536 in
  decode_from d (String (sextet (n / 262144)) (String (sextet (n / 4096 mod 64)) "==")) =
  inr (produced d ++ [a]).
Proof.
  intros Hq n.
  assert (H0 : n / 262144 < 64) by (pose proof (to_N_bound a); subst n; lia).
  assert (Ha : (n / 262144) * 4 + (n / 4096 mod 64) / 16 = Byte.to_N a)
    by (pose proof (to_N_bound a); subst n; lia).
  pose proof (mod64_bound (n / 4096)) as H1.
  rewrite (decode_from_alphabet _ _ _ H0), Hq.
  rewrite (decode_from_alphabet _ _ _ H1). cbn [quad_pos leftchar produced].
  rewrite (bits_first _ _ H0 H1), Ha, to_byte_to_N. reflexivity.
Qed.

Lemma decode_from_group2 d a b :
  quad_pos d = 0 ->
  let n := Byte.to_N a * 65536 + Byte.to_N b * 256 in
  decode_from d
    (String (sextet (n / 262144)) (String (sextet (n / 4096 mod 64))
      (String (sextet (n / 64 mod 64)) "="))) =
  inr (produced d ++ [a; b]).
Proof.
  intros Hq n.
  pose proof (to_N_bound a) as Hba. pose proof (to_N_bound b) as Hbb.
  assert (H0 : n / 262144 < 64) by (subst n; lia).
  assert (Ha : (n / 262144) * 4 + (n / 4096 mod 64) / 16 = Byte.to_N a) by (subst n; lia).
  assert (Hb : ((n / 4096 mod 64) mod 16) * 16 + (n / 64 mod 64) / 4 = Byte.to_N b)
    by (subst n; lia).
  pose proof (mod64_bound (n / 4096)) as H1.
  pose proof (mod64_bound (n / 64)) as H2.
  rewrite (decode_from_alphabet _ _ _ H0), Hq.
  rewrite (decode_from_alphabet _ _ _ H1). cbn [quad_pos leftchar produced].
  rewrite (decode_from_alphabet _ _ _ H2). cbn [quad_pos leftchar produced].
  rewrite (bits_first _ _ H0 H1), Ha.
  rewrite (proj2 (land_15 _ H1)), (bits_second' _ _ H1 H2), Hb.
  rewrite !to_byte_to_N, <- !app_assoc. reflexivity.
Qed.

(** Induction on byte strings three bytes at a time. *)
Lemma by_threes (P : list byte -> Prop) :
  P [] -> (forall a, P [a]) -> (forall a b, P [a; b]) ->
  (forall a b c rest, P rest -> P (a :: b :: c :: rest)) ->
  forall bytes, P bytes.
Proof.
  intros H0 H1 H2 H3.
  assert (Hall : forall bytes, P bytes /\ (forall a, P (a :: bytes)) /\
                               (forall a b, P (a :: b :: bytes))).
  { induction bytes as [|c rest (IH0 & IH1 & IH2)].
    - auto.
    - split; [apply IH1|]. split; [intros a; apply IH2|].
      intros a b. apply H3, IH0. }
  intros bytes. apply Hall.
Qed.

Lemma decode_from_b64encode bytes : forall d,
  quad_pos d = 0 ->
  decode_from d (b64encode bytes) = inr (produced d ++ bytes).
Proof.
  induction bytes as [|a|a b|a b c rest IH] using by_threes; intros d Hq.
  - simpl. rewrite Hq, app_nil_r. reflexivity.
  - apply (decode_from_group1 d a Hq).
  - apply (decode_from_group2 d a b Hq).
  - change (b64encode (a :: b :: c :: rest)) with
      (let n := Byte.to_N a * 65536 + Byte.to_N b * 256 + Byte.to_N c in
       String (sextet (n / 262144)) (String (sextet (n / 4096 mod 64))
         (String (sextet (n / 64 mod 64)) (String (sextet (n mod 64)) (b64encode rest))))).
    cbv zeta. rewrite (decode_from_group3 d a b c _ Hq).
    rewrite IH by reflexivity. simpl. rewrite <- app_assoc. reflexivity.
Qed.

(** What can be said of each character of an encoding. *)
Definition plain (c : ascii) : bool :=
  (N_of_ascii c <? 128) && negb (Ascii.eqb c ","%char).

Fixpoint all_plain (s : string) : bool :=
  match s with
  | EmptyString => true
  | String c rest => plain c && all_plain rest
  end.

Lemma sextet_plain n : plain (sextet (n mod 64)) = true.
Proof.
  destruct (sextet_read_back _ (mod64_bound n)) as (_ & _ & H3 & H4).
  unfold plain. rewrite H3, H4. reflexivity.
Qed.

Lemma sextet_plain_top n : n < 16777216 -> plain (sextet (n / 262144)) = true.
Proof.
  intros Hn. assert (Hk : n / 262144 < 64) by lia.
  destruct (sextet_read_back _ Hk) as (_ & _ & H3 & H4).
  unfold plain. rewrite H3, H4. reflexivity.
Qed.

Lemma b64encode_plain bytes : all_plain (b64encode bytes) = true.
Proof.
  induction bytes as [|a|a b|a b c rest IH] using by_threes.
  - reflexivity.
  - pose proof (to_N_bound a). cbn [b64encode all_plain].
    rewrite sextet_plain_top by lia. rewrite sextet_plain. reflexivity.
  - pose proof (to_N_bound a). pose proof (to_N_bound b). cbn [b64encode all_plain].
    rewrite sextet_plain_top by lia. rewrite !sextet_plain. reflexivity.
  - pose proof (to_N_bound a). pose proof (to_N_bound b). pose proof (to_N_bound c).
    cbn [b64encode all_plain].
    rewrite sextet_plain_top by lia. rewrite !sextet_plain, IH. reflexivity.
Qed.

Lemma all_plain_ascii s : all_plain s = true -> all_ascii s = true.
Proof.
  induction s as [|c rest IH]; [reflexivity|]. simpl. unfold plain.
  intros H. apply andb_prop in H as [Hc Hrest]. apply andb_prop in Hc as [Hc _].
  rewrite Hc, (IH Hrest). reflexivity.
Qed.

Lemma b64decode_b64encode_helper bytes : b64decode (b64encode bytes) = inr bytes.
Proof.
  unfold b64decode. rewrite (all_plain_ascii _ (b64encode_plain bytes)).
  apply (decode_from_b64encode bytes (Decoder 0 0 0 [])). reflexivity.
Qed.

(** X11: decoding undoes encoding.  For every byte string,
    [base64.b64decode(base64.b64encode(bytes))] gives the bytes back: the
    text is ASCII, and the decoder, fed the groups of four characters and
    the padding, produces the bytes in order and stops. *)
Theorem b64decode_b64encode bytes :
  all_ascii (b64encode bytes) = true /\
  decode_from (Decoder 0 0 0 []) (b64encode bytes) = inr bytes /\
  b64decode (b64encode bytes) = inr bytes.
Proof.
  split; [exact (all_plain_ascii _ (b64encode_plain bytes))|]. split.
  - apply (decode_from_b64encode bytes (Decoder 0 0 0 [])). reflexivity.
  - unfold b64decode. rewrite (all_plain_ascii _ (b64encode_plain bytes)).
    apply (decode_from_b64encode bytes (Decoder 0 0 0 [])). reflexivity.
Qed.

(** X12: an encoding is made of whole groups of four characters, one group
    for every three bytes or part of three bytes. *)
Theorem b64encode_length bytes :
  N.of_nat (String.length (b64encode bytes)) = 4 * ((N.of_nat (List.length bytes) + 2) / 3).
Proof.
  induction bytes as [|a|a b|a b c rest IH] using by_threes.
  - reflexivity.
  - reflexivity.
  - reflexivity.
  - cbn [b64encode String.length List.length]. lia.
Qed.

End Base64Spec.

(* ===================================================================== *)
(** * ai_service.py and main.py: the rest *)
(* ===================================================================== *)

(** More [str] methods.  Characters are code points below 256. *)
Module StrMore.

(** [c.isspace()]: tab to carriage return, the four separators, space, next
    line and no-break space. *)
Definition isspace (c : ascii) : bool :=
  let n := N_of_ascii c in
  ((9 <=? n) && (n <=? 13) || (28 <=? n) && (n <=? 32) || (n =? 133) || (n =? 160))%N.

Fixpoint lstrip (s : string) : string :=
  match s with
  | EmptyString => EmptyString
  | String c rest => if isspace c then lstrip rest else s
  end.

Fixpoint rstrip (s : string) : string :=
  match s with
  | EmptyString => EmptyString
  | String c rest =>
      match rstrip rest with
      | EmptyString => if isspace c then EmptyString else String c EmptyString
      | kept => String c kept
      end
  end.

(** [s.strip()]. *)
Definition strip (s : string) : string := lstrip (rstrip s).

(** [s.lstrip(c)] for a single character. *)
Fixpoint lstrip_char (c : ascii) (s : string) : string :=
  match s with
  | EmptyString => EmptyString
  | String d rest => if Ascii.eqb c d then lstrip_char c rest else s
  end.

(** [s.split(sep, 1)] for a single character: what stands before the first
    [sep] and what stands after it, when there is one. *)
Fixpoint split_once (sep : ascii) (s : string) : option (string * string) :=
  match s with
  | EmptyString => None
  | String c rest =>
      if Ascii.eqb sep c then Some (EmptyString, rest)
      else match split_once sep rest with
           | Some (before, after) => Some (String c before, after)
           | None => None
           end
  end.

(** [s.split(sep)] for a single character. *)
Fixpoint split (sep : ascii) (s : string) : list string :=
  match s with
  | EmptyString => [EmptyString]
  | String c rest =>
      if Ascii.eqb sep c then EmptyString :: split sep rest
      else match split sep rest with
           | piece :: pieces => String c piece :: pieces
           | [] => [String c EmptyString]
           end
  end.

(** [os.path.join(a, b)] on POSIX. *)
Definition path_join (a b : string) : string :=
  if Str.startswith b "/" then b
  else if Str.nonempty a && negb (Str.endswith a "/") then a +:+ "/" +:+ b
  else a +:+ b.

End StrMore.

Module AIMore.

Import AI.

Local Open Scope py_scope.

(** The prompt of [analyze_request]. *)
Definition analysis_prompt (title body : string) : string :=
  newline +:+
  "    Analyze the following user request for an image edit. Your task is to create a concise, one-paragraph instruction for an AI image editor." +:+ newline +:+
  "    Focus only on the technical editing requirements. Do not add any conversational fluff, greetings, or sign-offs." +:+ newline +:+
  "    " +:+ newline +:+
  "    Examples:" +:+ newline +:+
  "    - " +:+ quote +:+ "Remove the person in the background and enhance the colors." +:+ quote +:+ newline +:+
  "    - " +:+ quote +:+ "Change the color of the red car to a metallic blue." +:+ quote +:+ newline +:+
  "    - " +:+ quote +:+ "Restore this old, scratched photograph, fixing the cracks and improving the contrast." +:+ quote +:+ newline +:+
  newline +:+
  "    Post Title: " +:+ quote +:+ title +:+ quote +:+ newline +:+
  "    Post Body: " +:+ quote +:+
    (if Str.nonempty body then body else "No additional details provided.") +:+ quote +:+ newline +:+
  newline +:+
  "    AI Editing Prompt:" +:+ newline +:+
  "    ".

(** [analyze_request(title, body)]; [text_model] is [None] without
    [GEMINI_API_KEY]. *)
Definition analyze_request (text_model : option (string -> exn + Response))
    (title body : string) : M unit string :=
  match text_model with
  | None => ret "AI model not configured. Please set GEMINI_API_KEY."
  | Some generate_content =>
      try_except
        (response <- lift (generate_content (analysis_prompt title body)) ;;
         response_text <- lift (text response) ;;
         let analysis := Str.replace (StrMore.strip response_text) quote "" in
         ret analysis)
        [Exception]
        (fun e => ret ("Error analyzing request: " +:+ str e))
  end.

(** The answer of [/api/analyze]. *)
Record AnalyzeResponse := { analyze_ok : bool; analysis : string }.

(** A value under a key of the request: absent, [null], or a string. *)
Inductive json_field :=
| Missing
| Null
| Text (s : string).

(** The body of the request: bytes that are not JSON, a JSON object with
    what it has under "title" and "description", or another JSON value (an
    array, a string, a number, [null]). *)
Inductive parsed :=
| Object (title description : json_field)
| NotObject.

Inductive request_body :=
| NotJson
| Json (data : parsed).

(** [await request.json()]. *)
Definition request_json (body : request_body) : M unit parsed :=
  match body with
  | Json data => ret data
  | NotJson => raise (Exn JSONDecodeError "Expecting value: line 1 column 1 (char 0)")
  end.

(** [data.get(key, "")]; [key] picks the value in an object. *)
Definition data_get (data : parsed) (key : json_field -> json_field -> json_field)
    : M unit json_field :=
  match data with
  | Object title description =>
      ret (match key title description with
           | Missing => Text ""
           | value => value
           end)
  | NotObject => raise (Exn AttributeError "'list' object has no attribute 'get'")
  end.

(** What [f"{title}"] prints. *)
Definition format (value : json_field) : string :=
  match value with
  | Text s => s
  | Null => "None"
  | Missing => ""
  end.

(** The body as [analyze_request] tests and prints it: [None] is falsy, as
    the empty string is. *)
Definition or_empty (value : json_field) : string :=
  match value with
  | Text s => s
  | Null | Missing => ""
  end.

(** [analyze_post] of [main.py]. *)
Definition analyze_post (text_model : option (string -> exn + Response))
    (request : request_body) : M unit AnalyzeResponse :=
  data <- request_json request ;;
  title <- data_get data (fun title _ => title) ;;
  description <- data_get data (fun _ description => description) ;;
  analysis <- analyze_request text_model (format title) (or_empty description) ;;
  ret {| analyze_ok := true; analysis := analysis |}.

End AIMore.

Module AIMoreSpec.

Import AI AISpec AIMore.

Example strip_samples :
  StrMore.strip ("  " +:+ newline +:+ "Remove the  lamp. " +:+ newline) = "Remove the  lamp." /\
  StrMore.strip "   " = "" /\
  StrMore.split_once "," "data:image/png;base64,AAAA,BB" = Some ("data:image/png;base64", "AAAA,BB") /\
  StrMore.split ":" "data:image/png" = ["data"; "image/png"] /\
  StrMore.split ";" "abc" = ["abc"] /\
  StrMore.path_join "/srv/app" (StrMore.lstrip_char "/" "//static/uploads/a.png") =
    "/srv/app/static/uploads/a.png".
Proof. vm_compute. repeat split. Qed.

(** Removing a character removes every occurrence of it. *)
Lemma replace_char_gone c s :
  Str.contains (String c EmptyString) (Str.replace s (String c EmptyString) "") = false.
Proof.
  unfold Str.replace. induction s as [|d rest IH]; [reflexivity|].
  cbn [Str.replace_from Str.startswith String.length Nat.sub].
  destruct (Ascii.eqb c d) eqn:Hcd; cbn [andb].
  - exact IH.
  - cbn [Str.contains Str.startswith]. rewrite Hcd. cbn [andb orb]. exact IH.
Qed.


(** X13: [analyze_request] always returns a string.  Without a text model:
    the fixed notice.  When the model answers with text: that text stripped
    of surrounding white space and of every double quote, so the analysis
    holds no double quote.  When the call or the reading of the text raises:
    "Error analyzing request: " followed by the error. *)
Theorem analyze_request_total text_model title body :
  exists result,
    analyze_request text_model title body tt = (inr result, tt) /\
    (text_model = None ->
     result = "AI model not configured. Please set GEMINI_API_KEY.") /\
    (forall generate_content response answer,
       text_model = Some generate_content ->
       generate_content (analysis_prompt title body) = inr response ->
       text response = inr answer ->
       result = Str.replace (StrMore.strip answer) quote "" /\
       Str.contains quote result = false) /\
    (forall generate_content e,
       text_model = Some generate_content ->
       generate_content (analysis_prompt title body) = inl e \/
       (exists response, generate_content (analysis_prompt title body) = inr response /\
                         text response = inl e) ->
       result = "Error analyzing request: " +:+ str e).
Proof.
  unfold analyze_request. destruct text_model as [generate_content|].
  - rewrite try_except_Exception. unfold bind, lift, ret.
    destruct (generate_content (analysis_prompt title body)) as [e|response] eqn:Hgen.
    + eexists. split; [reflexivity|]. split; [discriminate|]. split.
      * intros g r a Hg. injection Hg as <-. rewrite Hgen. discriminate.
      * intros g e' Hg. injection Hg as <-. rewrite Hgen.
        intros [H|(r & H & _)]; [|discriminate]. injection H as <-. reflexivity.
    + destruct (text response) as [e|answer] eqn:Htext.
      * eexists. split; [reflexivity|]. split; [discriminate|]. split.
        -- intros g r a Hg. injection Hg as <-. rewrite Hgen.
           intros H. injection H as <-. rewrite Htext. discriminate.
        -- intros g e' Hg. injection Hg as <-. rewrite Hgen.
           intros [H|(r & H & Ht)]; [discriminate|]. injection H as <-.
           rewrite Htext in Ht. injection Ht as <-. reflexivity.
      * eexists. split; [reflexivity|]. split; [discriminate|]. split.
        -- intros g r a Hg. injection Hg as <-. rewrite Hgen.
           intros H. injection H as <-. rewrite Htext. intros H. injection H as <-.
           split; [reflexivity|]. apply replace_char_gone.
        -- intros g e' Hg. injection Hg as <-. rewrite Hgen.
           intros [H|(r & H & Ht)]; [discriminate|]. injection H as <-.
           rewrite Htext in Ht. discriminate.
  - eexists. split; [reflexivity|]. split; [reflexivity|]. split.
    + intros g r a Hg. discriminate.
    + intros g e Hg. discriminate.
Qed.



Example sample_analysis :
  analyze_request
    (Some (fun _ => inr {| parts := [];
                           text := inr (" " +:+ quote +:+ "Remove the lamp." +:+ quote +:+ newline) |}))
    "Please remove the lamp" "" tt = (inr "Remove the lamp.", tt) /\
  analyze_post None (Json (Object (Text "Please remove the lamp") Missing)) tt =
    (inr {| analyze_ok := true;
            analysis := "AI model not configured. Please set GEMINI_API_KEY." |}, tt).
Proof. vm_compute. split; reflexivity. Qed.

End AIMoreSpec.

(* ===================================================================== *)
(** * main.py: the edit route, and saving a data URL *)
(* ===================================================================== *)

Module Web.

Import AI.

(** The part of the disk the server writes to: the folders that exist, the
    files with their bytes, and whether writing is refused. *)
Record webdisk := Webdisk {
  folders : gset string;
  files : gmap string (list byte);
  read_only : bool
}.

(** What leaves a route as an exception: FastAPI's [HTTPException], or any
    other exception; both derive from [Exception]. *)
Inductive route_exn :=
| HTTPException (status_code : Z) (detail : string)
| Raised (e : exn).

(** The JSON answer of [/api/edit]: the result dictionary, with the key
    [edited_image_path] when a file was written. *)
Record EditJson := { result : EditResult; edited_image_path : option string }.

Definition edited_dir : string := "static/edited_images".

(** [if not os.path.exists(d): os.makedirs(d)]. *)
Definition ensure_folder (d : string) (w : webdisk) : exn + webdisk :=
  if bool_decide (d ∈ folders w) then inr w
  else if read_only w then inl (Exn PermissionError ("Permission denied: " +:+ d))
  else inr (Webdisk ({[d]} ∪ folders w) (files w) (read_only w)).

(** [with open(path, "wb") as f: f.write(bytes)]. *)
Definition write_file (path : string) (bytes : list byte) (w : webdisk) : exn + webdisk :=
  if read_only w then inl (Exn PermissionError ("Permission denied: " +:+ path))
  else inr (Webdisk (folders w) (<[path := bytes]> (files w)) (read_only w)).

Section Route.

Variable Image : Type.
Variable vision_model : option (string -> Image -> exn + Response).
Variable requests_get : string -> exn + HttpResponse.
Variable disk : string -> local_file.
Variable Image_open : list byte -> exn + Image.

(** The folder of [main.py]. *)
Variable base_dir : string.

(** The identifier [uuid.uuid4()] draws during the call. *)
Variable uuid4 : string.

(** Where the picture is: a path that starts with a slash is taken below
    [base_dir]. *)
Definition image_source_of (image_url : string) : string :=
  if Str.startswith image_url "/" then
    StrMore.path_join base_dir (StrMore.lstrip_char "/" image_url)
  else image_url.

(** The [if result.get("ok")] block: decode the data URL and write the
    file. *)
Definition persist (r : EditResult) (w : webdisk) : (route_exn + EditJson) * webdisk :=
  if ok r then
    match edited_image_data r with
    | Some image_data_url =>
        if Str.nonempty image_data_url then
          match StrMore.split_once "," image_data_url with
          | None =>
              (inl (Raised (Exn ValueError "not enough values to unpack (expected 2, got 1)")), w)
          | Some (header, encoded) =>
              match Base64.b64decode encoded with
              | inl e => (inl (Raised e), w)
              | inr image_bytes =>
                  match ensure_folder edited_dir w with
                  | inl e => (inl (Raised e), w)
                  | inr w1 =>
                      let filename := "edited_" +:+ uuid4 +:+ ".png" in
                      let file_path := StrMore.path_join edited_dir filename in
                      match write_file file_path image_bytes w1 with
                      | inl e => (inl (Raised e), w1)
                      | inr w2 =>
                          (inr {| result := r;
                                  edited_image_path := Some ("/" +:+ file_path) |}, w2)
                      end
                  end
              end
          end
        else (inr {| result := r; edited_image_path := None |}, w)
    | None => (inr {| result := r; edited_image_path := None |}, w)
    end
  else (inr {| result := r; edited_image_path := None |}, w).

(** The body of the [try]. *)
Definition edit_image_body (imageUrl prompt : option string) (w : webdisk)
    : (route_exn + EditJson) * webdisk :=
  let image_url := match imageUrl with Some u => u | None => "" end in
  let prompt' := match prompt with Some p => p | None => "" end in
  if negb (Str.nonempty image_url) || negb (Str.nonempty prompt') then
    (inl (HTTPException 400 "imageUrl and prompt are required"), w)
  else
    match edit_image_with_gemini Image vision_model requests_get disk Image_open
            (image_source_of image_url) prompt' tt with
    | (inl e, _) => (inl (Raised e), w)
    | (inr r, _) => persist r w
    end.

(** [edit_image] of [main.py]: [except Exception] turns whatever the body
    raised into status 500. *)
Definition edit_image (imageUrl prompt : option string) (w : webdisk)
    : (route_exn + EditJson) * webdisk :=
  match edit_image_body imageUrl prompt w with
  | (inr json, w') => (inr json, w')
  | (inl _, w') =>
      (inl (HTTPException 500 "An unexpected error occurred during image editing."), w')
  end.

End Route.

(** ** [save_image_from_data_url] of [ai_service.py] *)

Section Save.

Variable Image : Type.
Variable Image_open : list byte -> exn + Image.

(** [image.save(path)]: the bytes Pillow writes for the extension, or the
    error it raises (it refuses some modes for some formats). *)
Variable Image_save : Image -> string -> exn + list byte.

Variable uuid4 : string.

(** [os.makedirs(directory, exist_ok=True)]. *)
Definition makedirs_exist_ok (d : string) (w : webdisk) : exn + webdisk :=
  ensure_folder d w.

(** [l[i]]. *)
Definition item {A} (l : list A) (i : nat) : exn + A :=
  match nth_error l i with
  | Some x => inr x
  | None => inl (Exn IndexError "list index out of range")
  end.

Definition save_image_from_data_url (image_data_url : option string) (directory : string)
    : M webdisk string :=
  let url := match image_data_url with Some u => u | None => "" end in
  if negb (Str.nonempty url) || negb (Str.contains "base64," url) then
    raise (Exn ValueError "Invalid image data URL.")
  else
    try_except
      (bind (lift (match StrMore.split_once "," url with
                   | Some parts => inr parts
                   | None => inl (Exn ValueError "not enough values to unpack (expected 2, got 1)")
                   end)) (fun '(header, encoded) =>
       bind (lift (Base64.b64decode encoded)) (fun image_bytes =>
       bind (lift (Image_open image_bytes)) (fun image =>
       bind (lift (item (StrMore.split ";" header) 0)) (fun first =>
       bind (lift (item (StrMore.split ":" first) 1)) (fun mime_type =>
       let ext := if Str.contains "png" mime_type then "png" else "jpg" in
       let file_name := uuid4 +:+ "." +:+ ext in
       let file_path := StrMore.path_join directory file_name in
       bind (fun w => match makedirs_exist_ok directory w with
                      | inr w' => (inr tt, w')
                      | inl e => (inl e, w)
                      end) (fun _ =>
       bind (lift (Image_save image ext)) (fun saved =>
       bind (fun w => match write_file file_path saved w with
                      | inr w' => (inr tt, w')
                      | inl e => (inl e, w)
                      end) (fun _ =>
       ret file_path)))))))))
      [Exception]
      (fun e => raise e).

End Save.

End Web.

Module WebSpec.

Import AI AISpec Web.

Lemma str_app_assoc (a b c : string) : (a +:+ b) +:+ c = a +:+ (b +:+ c).
Proof.
  induction a as [|x a IH]; [reflexivity|].
  change (String x ((a +:+ b) +:+ c) = String x (a +:+ (b +:+ c))). by rewrite IH.
Qed.

Lemma contains_char_cons c d t :
  Str.contains (String c EmptyString) (String d t) =
    Ascii.eqb c d || Str.contains (String c EmptyString) t.
Proof.
  cbn [Str.contains Str.startswith]. destruct t; rewrite andb_true_r; reflexivity.
Qed.

Lemma contains_char_app c a b :
  Str.contains (String c EmptyString) (a +:+ b) =
    Str.contains (String c EmptyString) a || Str.contains (String c EmptyString) b.
Proof.
  induction a as [|x a IH].
  - change (EmptyString +:+ b) with b. reflexivity.
  - change (String x a +:+ b) with (String x (a +:+ b)).
    rewrite !contains_char_cons, IH, orb_assoc. reflexivity.
Qed.

(** Splitting at the first separator, when what stands before has none. *)
Lemma split_once_found c p rest :
  Str.contains (String c EmptyString) p = false ->
  StrMore.split_once c (p +:+ String c rest) = Some (p, rest).
Proof.
  induction p as [|x p IH]; intros Hp.
  - change (EmptyString +:+ String c rest) with (String c rest).
    cbn [StrMore.split_once]. rewrite Ascii.eqb_refl. reflexivity.
  - change (String x p +:+ String c rest) with (String x (p +:+ String c rest)).
    rewrite contains_char_cons in Hp. apply orb_false_elim in Hp as [Hx Hp].
    cbn [StrMore.split_once]. rewrite Hx, (IH Hp). reflexivity.
Qed.

Lemma split_found c p rest :
  Str.contains (String c EmptyString) p = false ->
  StrMore.split c (p +:+ String c rest) = p :: StrMore.split c rest.
Proof.
  induction p as [|x p IH]; intros Hp.
  - change (EmptyString +:+ String c rest) with (String c rest).
    cbn [StrMore.split]. rewrite Ascii.eqb_refl. reflexivity.
  - change (String x p +:+ String c rest) with (String x (p +:+ String c rest)).
    rewrite contains_char_cons in Hp. apply orb_false_elim in Hp as [Hx Hp].
    cbn [StrMore.split]. rewrite Hx, (IH Hp). reflexivity.
Qed.

Lemma split_none c p :
  Str.contains (String c EmptyString) p = false -> StrMore.split c p = [p].
Proof.
  induction p as [|x p IH]; intros Hp; [reflexivity|].
  rewrite contains_char_cons in Hp. apply orb_false_elim in Hp as [Hx Hp].
  cbn [StrMore.split]. rewrite Hx, (IH Hp). reflexivity.
Qed.

(** A data URI, cut at the comma. *)
Lemma data_url_shape mime payload :
  "data:" +:+ mime +:+ ";base64," +:+ payload =
    ("data:" +:+ mime +:+ ";base64") +:+ String "," payload.
Proof.
  rewrite !str_app_assoc. reflexivity.
Qed.

Lemma data_url_header_no_comma mime :
  Str.contains "," mime = false ->
  Str.contains "," ("data:" +:+ mime +:+ ";base64") = false.
Proof.
  intros Hm. rewrite !contains_char_app, Hm. reflexivity.
Qed.

(** Cutting a data URI at the comma and decoding gives the bytes back. *)
Lemma data_url_decodes mime bytes :
  Str.contains "," mime = false ->
  exists header,
    StrMore.split_once "," ("data:" +:+ mime +:+ ";base64," +:+ b64encode bytes) =
      Some (header, b64encode bytes) /\
    header = "data:" +:+ mime +:+ ";base64" /\
    Base64.b64decode (b64encode bytes) = inr bytes.
Proof.
  intros Hm. eexists. split; [|split; [reflexivity|apply Base64Spec.b64decode_b64encode_helper]].
  rewrite data_url_shape. apply split_once_found, data_url_header_no_comma, Hm.
Qed.

Section Route.

Variable Image : Type.
Variable vision_model : option (string -> Image -> exn + Response).
Variable requests_get : string -> exn + HttpResponse.
Variable disk : string -> local_file.
Variable Image_open : list byte -> exn + Image.
Variable base_dir : string.
Variable uuid4 : string.

Abbreviation route :=
  (edit_image Image vision_model requests_get disk Image_open base_dir uuid4).

Abbreviation gemini :=
  (edit_image_with_gemini Image vision_model requests_get disk Image_open).

Definition unexpected : route_exn :=
  HTTPException 500 "An unexpected error occurred during image editing.".

(** X15: [/api/edit] fails with status 500 only.  A request without
    [imageUrl] or without [prompt] (absent or empty) is answered with 500
    and the disk untouched: the 400 raised for it is caught by the handler
    of the route itself.  Whatever else goes wrong is a 500 too. *)
Theorem edit_image_fails_with_500 imageUrl prompt w :
  (forall x w', route imageUrl prompt w = (inl x, w') -> x = unexpected) /\
  (Str.nonempty (match imageUrl with Some u => u | None => "" end) = false \/
   Str.nonempty (match prompt with Some p => p | None => "" end) = false ->
   route imageUrl prompt w = (inl unexpected, w)).
Proof.
  split.
  - intros x w'. unfold edit_image.
    destruct (edit_image_body _ _ _ _ _ _ _ _ _ _) as [[e|json] w2]; intros H.
    + injection H as <- _. reflexivity.
    + discriminate.
  - intros Hmiss. unfold edit_image, edit_image_body.
    assert (Hor : negb (Str.nonempty (match imageUrl with Some u => u | None => "" end))
                  || negb (Str.nonempty (match prompt with Some p => p | None => "" end)) = true).
    { destruct Hmiss as [H|H]; rewrite H; simpl; [reflexivity|apply orb_true_r]. }
    rewrite Hor. reflexivity.
Qed.

(** X16: the edited picture reaches the disk byte for byte.  When the
    orchestrator succeeds with the data URI of [bytes] (MIME type without a
    comma) and the disk can be written, the route stores exactly [bytes] as
    [static/edited_images/edited_<uuid>.png], [.png] whatever the MIME type,
    leaves every other file alone and answers with the result and that path
    after a slash. *)
Theorem edit_image_persists_bytes image_url prompt mime bytes w :
  Str.nonempty image_url = true ->
  Str.nonempty prompt = true ->
  gemini (image_source_of base_dir image_url) prompt tt =
    (inr (success ("data:" +:+ mime +:+ ";base64," +:+ b64encode bytes)), tt) ->
  Str.contains "," mime = false ->
  read_only w = false ->
  let file_path := "static/edited_images/edited_" +:+ uuid4 +:+ ".png" in
  exists w',
    route (Some image_url) (Some prompt) w =
      (inr {| result := success ("data:" +:+ mime +:+ ";base64," +:+ b64encode bytes);
              edited_image_path := Some ("/" +:+ file_path) |}, w') /\
    files w' = <[file_path := bytes]> (files w) /\
    folders w' = {[edited_dir]} ∪ folders w.
Proof.
  intros Hu Hp Hrun Hm Hw file_path.
  unfold edit_image, edit_image_body. rewrite Hu, Hp. cbn [negb orb].
  rewrite Hrun. unfold persist. cbn [ok edited_image_data success].
  destruct (data_url_decodes mime bytes Hm) as (header & Hsplit & _ & Hdec).
  change (Str.nonempty ("data:" +:+ mime +:+ ";base64," +:+ b64encode bytes)) with true.
  cbv iota. rewrite Hsplit, Hdec.
  unfold ensure_folder, write_file. rewrite Hw.
  destruct (bool_decide (edited_dir ∈ folders w)) eqn:Hin.
  - rewrite Hw. eexists. split; [reflexivity|]. split; [reflexivity|].
    apply bool_decide_eq_true in Hin. simpl. symmetry.
    apply subseteq_union_1_L, singleton_subseteq_l, Hin.
  - cbn [read_only]. eexists. split; [reflexivity|]. split; reflexivity.
Qed.

(** X17: a failed edit is an ordinary answer.  When the orchestrator returns
    [ok: false], the route answers with that very result, without
    [edited_image_path], and writes nothing. *)
Theorem edit_image_passes_failure image_url prompt r w :
  Str.nonempty image_url = true ->
  Str.nonempty prompt = true ->
  gemini (image_source_of base_dir image_url) prompt tt = (inr r, tt) ->
  ok r = false ->
  route (Some image_url) (Some prompt) w =
    (inr {| result := r; edited_image_path := None |}, w).
Proof.
  intros Hu Hp Hrun Hok.
  unfold edit_image, edit_image_body. rewrite Hu, Hp. cbn [negb orb].
  rewrite Hrun. unfold persist. rewrite Hok. reflexivity.
Qed.

End Route.

(** ** Sample requests *)

Definition jpeg_answer : Response :=
  {| parts := [image_part "image/jpeg" png_bytes]; text := no_text |}.

Definition empty_disk : webdisk := Webdisk ∅ ∅ false.

Lemma edit_image_persists_bytes_witness :
  let file_path := "static/edited_images/edited_" +:+ "1b4e28ba" +:+ ".png" in
  exists w',
    edit_image (list byte) (answers jpeg_answer) not_found_404 one_picture decoded
      "/srv" "1b4e28ba" (Some "/static/uploads/cat.png") (Some "make the sky pink") empty_disk =
      (inr {| result := success ("data:" +:+ "image/jpeg" +:+ ";base64," +:+ b64encode png_bytes);
              edited_image_path := Some ("/" +:+ file_path) |}, w') /\
    files w' = <[file_path := png_bytes]> (files empty_disk) /\
    folders w' = {[edited_dir]} ∪ folders empty_disk.
Proof.
  apply (edit_image_persists_bytes (list byte) (answers jpeg_answer) not_found_404
           one_picture decoded "/srv" "1b4e28ba"
           "/static/uploads/cat.png" "make the sky pink" "image/jpeg" png_bytes empty_disk).
  - reflexivity.
  - reflexivity.
  - vm_compute. reflexivity.
  - reflexivity.
  - reflexivity.
Defined.

Lemma edit_image_passes_failure_witness :
  edit_image (list byte) (answers jpeg_answer) not_found_404 one_picture decoded
    "/srv" "1b4e28ba" (Some "/static/uploads/dog.png") (Some "make the sky pink") empty_disk =
  (inr {| result := failed "Image file not found at path: /srv/static/uploads/dog.png";
          edited_image_path := None |}, empty_disk).
Proof.
  apply (edit_image_passes_failure (list byte) (answers jpeg_answer) not_found_404
           one_picture decoded "/srv" "1b4e28ba"
           "/static/uploads/dog.png" "make the sky pink").
  - reflexivity.
  - reflexivity.
  - vm_compute. reflexivity.
  - reflexivity.
Defined.

Example sample_missing_prompt :
  edit_image (list byte) (answers jpeg_answer) not_found_404 one_picture decoded
    "/srv" "1b4e28ba" (Some "/static/uploads/cat.png") None empty_disk =
  (inl (HTTPException 500 "An unexpected error occurred during image editing."), empty_disk).
Proof. vm_compute. reflexivity. Qed.

Example sample_read_only_disk :
  fst (edit_image (list byte) (answers jpeg_answer) not_found_404 one_picture decoded
         "/srv" "1b4e28ba" (Some "/static/uploads/cat.png") (Some "make the sky pink")
         (Webdisk ∅ ∅ true)) =
  inl (HTTPException 500 "An unexpected error occurred during image editing.").
Proof. vm_compute. reflexivity. Qed.

End WebSpec.

(* ===================================================================== *)
(** * More on the edit orchestrator *)
(* ===================================================================== *)

Module EditSpec.

Import AI AISpec.

Section Orchestrator.

Variable Image : Type.
Variable requests_get : string -> exn + HttpResponse.
Variable disk : string -> local_file.
Variable Image_open : list byte -> exn + Image.

Abbreviation edit vision_model :=
  (edit_image_with_gemini Image vision_model requests_get disk Image_open).

(** The message the three [except] clauses make of an exception. *)
Definition reported (image_source : string) (e : exn) : string :=
  if isinstance e RequestException then "Failed to download image from URL: " +:+ str e
  else if isinstance e FileNotFoundError then "Image file not found at path: " +:+ image_source
  else str e.

Lemma dispatch_reported image_source e :
  dispatch
    [ ([RequestException],
       fun e => ret (failed ("Failed to download image from URL: " +:+ str e)));
      ([FileNotFoundError],
       fun _ => ret (failed ("Image file not found at path: " +:+ image_source)));
      ([Exception],
       fun e => ret (failed (str e))) ] e tt =
  (inr (failed (reported image_source e)), tt).
Proof.
  unfold dispatch, reported, isinstance_any. cbn [existsb]. rewrite !orb_false_r.
  destruct (isinstance e RequestException); [reflexivity|].
  destruct (isinstance e FileNotFoundError); [reflexivity|].
  unfold isinstance. rewrite issubclass_Exception. reflexivity.
Qed.

(** The stages of an edit and where each can stop. *)
Inductive stage_outcome :=
| Unconfigured
| Stopped (e : exn)
| Answered (r : Response).

Definition stages (vision_model : option (string -> Image -> exn + Response))
    (image_source prompt : string) : stage_outcome :=
  match vision_model with
  | None => Unconfigured
  | Some generate_content =>
      match load_image_bytes requests_get disk image_source tt with
      | (inl e, _) => Stopped e
      | (inr [], _) => Stopped (Exn ValueError "Could not load image data from source.")
      | (inr (b :: bs), _) =>
          match Image_open (b :: bs) with
          | inl e => Stopped e
          | inr image =>
              match generate_content (final_prompt prompt) image with
              | inl e => Stopped e
              | inr r => Answered r
              end
          end
      end
  end.

Lemma edit_image_with_gemini_stages vision_model image_source prompt :
  edit vision_model image_source prompt tt =
    match stages vision_model image_source prompt with
    | Unconfigured => (inr (failed "AI model not configured."), tt)
    | Stopped e => (inr (failed (reported image_source e)), tt)
    | Answered r => read_answer r tt
    end.
Proof.
  unfold edit_image_with_gemini, stages. destruct vision_model as [generate_content|];
    [|reflexivity].
  unfold try_clauses. unfold bind at 1.
  destruct (load_image_bytes requests_get disk image_source tt) as [[e|[|b bs]] []].
  - apply dispatch_reported.
  - unfold raise. apply dispatch_reported.
  - unfold bind, lift. destruct (Image_open (b :: bs)) as [e|image].
    + apply dispatch_reported.
    + destruct (generate_content (final_prompt prompt) image) as [e|r].
      * apply dispatch_reported.
      * rewrite read_answer_run. reflexivity.
Qed.

(** X18: every result is of one of two shapes.  Either [ok: true] with a
    data URI, [data:<mime>;base64,<base64 of bytes>] for the MIME type and
    the bytes of the first part of the answer, and no error; or [ok: false]
    with an error message and no data.  A caller that sees [ok] can rely on
    [edited_image_data]. *)
Theorem edit_result_shape vision_model image_source prompt :
  exists r,
    edit vision_model image_source prompt tt = (inr r, tt) /\
    ((exists blob, r = success ("data:" +:+ mime_type blob +:+ ";base64," +:+
                               b64encode (data blob)) /\ blob_bool blob = true) \/
     (exists message, r = failed message)).
Proof.
  rewrite edit_image_with_gemini_stages.
  destruct (stages vision_model image_source prompt) as [|e|r].
  - eexists. split; [reflexivity|]. right. eauto.
  - eexists. split; [reflexivity|]. right. eauto.
  - rewrite read_answer_run. eexists. split; [reflexivity|].
    destruct (parts r) as [|part rest]; [right; eauto|].
    destruct (blob_bool (inline_data part)) eqn:Hb; [|right; eauto].
    left. exists (inline_data part). split; [reflexivity|exact Hb].
Qed.

(** X19: errors are told apart by class, not by where they arose.  With a
    configured model, when a stage raises (loading the bytes, finding them
    empty, decoding the picture, calling the model), the result is
    [ok: false] and the message depends on the class of the exception alone:
    any [RequestException] reads "Failed to download image from URL: ...",
    any [FileNotFoundError] reads "Image file not found at path: <source>",
    anything else is the text of the exception. *)
Theorem edit_errors_by_class generate_content image_source prompt e :
  load_image_bytes requests_get disk image_source tt = (inl e, tt) \/
  (load_image_bytes requests_get disk image_source tt = (inr [], tt) /\
   e = Exn ValueError "Could not load image data from source.") \/
  (exists b bs,
     load_image_bytes requests_get disk image_source tt = (inr (b :: bs), tt) /\
     (Image_open (b :: bs) = inl e \/
      exists image, Image_open (b :: bs) = inr image /\
                    generate_content (final_prompt prompt) image = inl e)) ->
  edit (Some generate_content) image_source prompt tt =
    (inr (failed (if isinstance e RequestException then
                    "Failed to download image from URL: " +:+ str e
                  else if isinstance e FileNotFoundError then
                    "Image file not found at path: " +:+ image_source
                  else str e)), tt).
Proof.
  intros Hstop. fold (reported image_source e).
  assert (Hs : stages (Some generate_content) image_source prompt = Stopped e).
  { unfold stages.
    destruct Hstop as [H|[[H ->]|(b & bs & H & [Ho|(image & Ho & Hg)])]]; rewrite H.
    - reflexivity.
    - reflexivity.
    - rewrite Ho. reflexivity.
    - rewrite Ho, Hg. reflexivity. }
  rewrite edit_image_with_gemini_stages, Hs. reflexivity.
Qed.

End Orchestrator.

(** A model call that fails with a connection error of [requests] is
    reported as a failed download, although the picture was read from the
    local disk. *)
Definition unreachable_model : option (string -> list byte -> exn + Response) :=
  Some (fun _ _ => inl (Exn ConnectionError "Max retries exceeded")).

Lemma edit_errors_by_class_witness :
  edit_image_with_gemini (list byte) unreachable_model not_found_404 one_picture decoded
    "/srv/static/uploads/cat.png" "make the sky pink" tt =
    (inr (failed (if isinstance (Exn ConnectionError "Max retries exceeded") RequestException then
                    "Failed to download image from URL: " +:+ "Max retries exceeded"
                  else if isinstance (Exn ConnectionError "Max retries exceeded") FileNotFoundError then
                    "Image file not found at path: " +:+ "/srv/static/uploads/cat.png"
                  else "Max retries exceeded")), tt).
Proof.
  apply (edit_errors_by_class (list byte) not_found_404 one_picture decoded
           (fun _ _ => inl (Exn ConnectionError "Max retries exceeded"))
           "/srv/static/uploads/cat.png" "make the sky pink"
           (Exn ConnectionError "Max retries exceeded")).
  right. right. exists "P"%byte, (bytes_of "NG-DATA"). split; [reflexivity|].
  right. exists png_bytes. split; reflexivity.
Defined.

Example sample_misattributed_error :
  edit_image_with_gemini (list byte) unreachable_model not_found_404 one_picture decoded
    "/srv/static/uploads/cat.png" "make the sky pink" tt =
  (inr (failed "Failed to download image from URL: Max retries exceeded"), tt).
Proof. vm_compute. reflexivity. Qed.

Example sample_empty_file :
  edit_image_with_gemini (list byte) unreachable_model not_found_404
    (fun _ => Bytes []) decoded "/srv/static/uploads/empty.png" "make the sky pink" tt =
  (inr (failed "Could not load image data from source."), tt).
Proof. vm_compute. reflexivity. Qed.

End EditSpec.

(* ===================================================================== *)
(** * Saving a data URL *)
(* ===================================================================== *)

Module SaveSpec.

Import AI AISpec Web WebSpec.

Lemma startswith_app (p rest : string) : Str.startswith (p +:+ rest) p = true.
Proof.
  induction p as [|c p IH]; [reflexivity|].
  change (String c p +:+ rest) with (String c (p +:+ rest)).
  cbn [Str.startswith]. rewrite Ascii.eqb_refl, IH. reflexivity.
Qed.

Lemma contains_app_r (sub a s : string) :
  Str.contains sub s = true -> Str.contains sub (a +:+ s) = true.
Proof.
  intros Hs. induction a as [|c a IH]; [exact Hs|].
  change (String c a +:+ s) with (String c (a +:+ s)).
  cbn [Str.contains]. rewrite IH. apply orb_true_r.
Qed.

Lemma contains_prefix (sub rest : string) : Str.contains sub (sub +:+ rest) = true.
Proof.
  destruct sub as [|c sub].
  - destruct rest; reflexivity.
  - change (String c sub +:+ rest) with (String c (sub +:+ rest)).
    cbn [Str.contains].
    change (String c (sub +:+ rest)) with (String c sub +:+ rest).
    rewrite startswith_app. reflexivity.
Qed.

(** A data URI holds the marker [base64,] and is not empty. *)
Lemma data_url_accepted mime payload :
  Str.nonempty ("data:" +:+ mime +:+ ";base64," +:+ payload) = true /\
  Str.contains "base64," ("data:" +:+ mime +:+ ";base64," +:+ payload) = true.
Proof.
  split; [reflexivity|].
  apply (contains_app_r "base64," "data:").
  apply (contains_app_r "base64," mime).
  apply (contains_app_r "base64," ";").
  apply (contains_prefix "base64," payload).
Qed.

(** The MIME type read back from the header of a data URI. *)
Lemma header_mime_type mime first :
  Str.contains ";" mime = false ->
  Str.contains ":" mime = false ->
  item (StrMore.split ";" ("data:" +:+ mime +:+ ";base64")) 0 = inr first ->
  first = "data:" +:+ mime /\ item (StrMore.split ":" first) 1 = inr mime.
Proof.
  intros Hsemi Hcolon.
  replace ("data:" +:+ mime +:+ ";base64")
    with (("data:" +:+ mime) +:+ String ";" "base64")
    by (rewrite str_app_assoc; reflexivity).
  rewrite split_found by (rewrite contains_char_app, Hsemi; reflexivity).
  intros H. injection H as <-. split; [reflexivity|].
  change ("data:" +:+ mime) with ("data" +:+ String ":" mime).
  rewrite split_found by reflexivity.
  rewrite (split_none _ _ Hcolon). reflexivity.
Qed.

Section Save.

Variable Image : Type.
Variable Image_open : list byte -> exn + Image.
Variable Image_save : Image -> string -> exn + list byte.
Variable uuid4 : string.

Abbreviation save := (save_image_from_data_url Image Image_open Image_save uuid4).

(** X20: what is not a base64 data URL is refused before anything is done.
    For [None], the empty string, or a string without [base64,],
    [save_image_from_data_url] raises [ValueError("Invalid image data URL.")]
    and leaves the disk as it was. *)
Theorem save_image_rejects_invalid image_data_url directory w :
  image_data_url = None \/ image_data_url = Some "" \/
  (exists url, image_data_url = Some url /\ Str.contains "base64," url = false) ->
  save image_data_url directory w = (inl (Exn ValueError "Invalid image data URL."), w).
Proof.
  intros [->|[->|(url & -> & Hno)]]; unfold save_image_from_data_url.
  - reflexivity.
  - reflexivity.
  - rewrite Hno. rewrite orb_true_r. reflexivity.
Qed.

(** X21: a data URI made by the orchestrator is saved as the picture it
    encodes.  For the URI of [bytes] with a MIME type free of [,], [;] and
    [:], the picture opened is the one of [bytes]; it is saved as
    [<directory>/<uuid>.png] when the MIME type contains [png] and as
    [<uuid>.jpg] otherwise; the directory is created when missing, no other
    file changes and the path is returned. *)
Theorem save_image_from_data_uri mime bytes image saved directory w :
  Str.contains "," mime = false ->
  Str.contains ";" mime = false ->
  Str.contains ":" mime = false ->
  Image_open bytes = inr image ->
  let ext := if Str.contains "png" mime then "png" else "jpg" in
  Image_save image ext = inr saved ->
  read_only w = false ->
  let file_path := StrMore.path_join directory (uuid4 +:+ "." +:+ ext) in
  exists w',
    save (Some ("data:" +:+ mime +:+ ";base64," +:+ b64encode bytes)) directory w =
      (inr file_path, w') /\
    files w' = <[file_path := saved]> (files w) /\
    folders w' = {[directory]} ∪ folders w.
Proof.
  intros Hcomma Hsemi Hcolon Hopen ext Hsave Hw file_path.
  unfold save_image_from_data_url.
  destruct (data_url_accepted mime (b64encode bytes)) as [Hne Hmark].
  rewrite Hne, Hmark. cbn [negb orb].
  rewrite try_except_Exception.
  destruct (data_url_decodes mime bytes Hcomma) as (header & Hsplit & -> & Hdec).
  unfold bind at 1. unfold lift at 1. rewrite Hsplit.
  unfold bind at 1. unfold lift at 1. rewrite Hdec.
  unfold bind at 1. unfold lift at 1. rewrite Hopen.
  unfold bind at 1. unfold lift at 1.
  destruct (item (StrMore.split ";" ("data:" +:+ mime +:+ ";base64")) 0) as [e|first] eqn:Hfirst.
  { exfalso. revert Hfirst.
    replace ("data:" +:+ mime +:+ ";base64")
      with (("data:" +:+ mime) +:+ String ";" "base64")
      by (rewrite str_app_assoc; reflexivity).
    rewrite split_found by (rewrite contains_char_app, Hsemi; reflexivity).
    discriminate. }
  destruct (header_mime_type mime first Hsemi Hcolon Hfirst) as [-> Hmime].
  unfold bind at 1. unfold lift at 1. rewrite Hmime.
  fold ext. fold file_path.
  unfold bind at 1. unfold makedirs_exist_ok, ensure_folder. rewrite Hw.
  destruct (bool_decide (directory ∈ folders w)) eqn:Hin.
  - unfold bind at 1. unfold lift at 1. rewrite Hsave.
    unfold bind at 1. unfold write_file. rewrite Hw.
    eexists. split; [reflexivity|]. split; [reflexivity|].
    apply bool_decide_eq_true in Hin. simpl. symmetry.
    apply subseteq_union_1_L, singleton_subseteq_l, Hin.
  - unfold bind at 1. unfold lift at 1. rewrite Hsave.
    unfold bind at 1. unfold write_file. cbn [read_only].
    eexists. split; [reflexivity|]. split; reflexivity.
Qed.

End Save.

(** ** Sample saves *)

Definition reencode (image : list byte) (ext : string) : exn + list byte :=
  inr (bytes_of ext ++ image).

Lemma save_image_rejects_invalid_witness :
  save_image_from_data_url (list byte) decoded reencode "1b4e28ba"
    (Some "https://i.redd.it/a.jpg") "static/edited_images" empty_disk =
  (inl (Exn ValueError "Invalid image data URL."), empty_disk).
Proof.
  apply (save_image_rejects_invalid (list byte) decoded reencode "1b4e28ba").
  right. right. eexists. split; reflexivity.
Defined.

Lemma save_image_from_data_uri_witness :
  let ext := if Str.contains "png" "image/jpeg" then "png" else "jpg" in
  let file_path := StrMore.path_join "static/edited_images" ("1b4e28ba" +:+ "." +:+ ext) in
  exists w',
    save_image_from_data_url (list byte) decoded reencode "1b4e28ba"
      (Some ("data:" +:+ "image/jpeg" +:+ ";base64," +:+ b64encode png_bytes))
      "static/edited_images" empty_disk = (inr file_path, w') /\
    files w' = <[file_path := bytes_of "jpg" ++ png_bytes]> (files empty_disk) /\
    folders w' = {["static/edited_images"]} ∪ folders empty_disk.
Proof.
  apply (save_image_from_data_uri (list byte) decoded reencode "1b4e28ba"
           "image/jpeg" png_bytes png_bytes (bytes_of "jpg" ++ png_bytes)
           "static/edited_images" empty_disk);
    reflexivity.
Defined.

Example sample_save :
  fst (save_image_from_data_url (list byte) decoded reencode "1b4e28ba"
         (Some "data:image/png;base64,UE5HLURBVEE=") "static/edited_images" empty_disk) =
    inr "static/edited_images/1b4e28ba.png" /\
  fst (save_image_from_data_url (list byte) decoded reencode "1b4e28ba"
         (Some "base64,UE5HLURBVEE=") "static/edited_images" empty_disk) =
    inl (Exn IndexError "list index out of range").
Proof. vm_compute. split; reflexivity. Qed.

End SaveSpec.
